(** * NanoSnap editor: the edit session of [components/Editor.tsx] and the
    remote client of [services/geminiService.ts]

    The development embeds the editor's React state, its event handlers and
    the Gemini client as Rocq functions, and checks the properties the
    specification states about them.

    Conventions.
    - A JavaScript [number] that holds a pixel coordinate or a size is a
      binary64 [float] (Rocq's primitive floats); an array index is a [nat].
    - A JavaScript string is a [string]; its characters stand for code units
      below 256.
    - [None] in a slot of type [option _] is JavaScript's [null] or
      [undefined].
    - A handler closes over the state of the render that created it and
      queues its updates; see [Handler]. *)

From Stdlib Require Import Floats ZArith Lia Ascii String.
From stdpp Require Import base list strings.

Local Open Scope string_scope.
Local Open Scope nat_scope.

(* ------------------------------------------------------------------ *)
(** ** JavaScript values and strings *)

Module Js.

(** The value of a call: arrow functions with a block body and no
    [return] statement evaluate to [undefined]. *)
Inductive Value : Type :=
| undefined
| boolean (b : bool).

(** A thrown [Error]: only its [message] is ever read. *)
Record Error : Type := mkError { message : string }.

(** A settled promise. *)
Inductive Promise (A : Type) : Type :=
| Resolved (value : A)
| Rejected (reason : Error).
Arguments Resolved {A} value.
Arguments Rejected {A} reason.

(** Truthiness of a string: everything but the empty string. *)
Definition truthy (s : string) : bool :=
  match s with EmptyString => false | String _ _ => true end.

(** [a || b] on strings. *)
Definition or_else (a b : string) : string := if truthy a then a else b.

(** White space as [String.prototype.trim] sees it, among the code units
    below 256: TAB, LF, VT, FF, CR, SP and NBSP. *)
Definition isWhiteSpace (c : ascii) : bool :=
  let n := nat_of_ascii c in
  ((9 <=? n) && (n <=? 13)) || (n =? 32) || (n =? 160).

Fixpoint trimStart (s : string) : string :=
  match s with
  | EmptyString => EmptyString
  | String c s' => if isWhiteSpace c then trimStart s' else s
  end.

Fixpoint trimEnd (s : string) : string :=
  match s with
  | EmptyString => EmptyString
  | String c s' =>
      match trimEnd s' with
      | EmptyString => if isWhiteSpace c then EmptyString else String c EmptyString
      | t => String c t
      end
  end.

Definition trim (s : string) : string := trimEnd (trimStart s).

(** [s.startsWith(p)] and the rest of [s] after [p]. *)
Fixpoint stripPrefix (p s : string) : option string :=
  match p, s with
  | EmptyString, _ => Some s
  | String a p', String b s' => if Ascii.eqb a b then stripPrefix p' s' else None
  | String _ _, EmptyString => None
  end.

(** A property that is read as [undefined] prints as the word. *)
Definition toString (v : option string) : string :=
  match v with Some s => s | None => "undefined" end.

End Js.

(* ------------------------------------------------------------------ *)
(** ** [types.ts] *)

Module Types.

(** A DOM [File]: an opaque handle. *)
Inductive File : Type := FileHandle (id : nat).

(** [interface ImageFile].  [file] is optional only because the object
    spread of an [undefined] current image yields an object without it. *)
Record ImageFile : Type := mkImageFile {
  file : option File;
  previewUrl : string;
  base64 : string;
  mimeType : string
}.

(** [interface GeneratedImage]; [timestamp] is [Date.now()]. *)
Record GeneratedImage : Type := mkGeneratedImage {
  imageUrl : string;
  prompt : string;
  timestamp : Z
}.

(** [enum EditorStatus]. *)
Inductive EditorStatus : Type :=
| IDLE | UPLOADING | READY | PROCESSING | COMPLETE | ERROR.

End Types.

(* ------------------------------------------------------------------ *)
(** ** [services/geminiService.ts] *)

Module GeminiService.
Import Types.

Inductive ImageSize : Type := size1K | size2K | size4K.

(** [interface EditConfig]. *)
Record EditConfig : Type := mkEditConfig {
  model : option string;
  imageSize : option ImageSize
}.

(** The argument of [ai.models.generateContent]: the model, the two
    content parts and [generateConfig.imageConfig]. *)
Record Request : Type := mkRequest {
  req_model : string;
  req_data : string;
  req_mimeType : string;
  req_text : string;
  req_imageConfig : option ImageSize
}.

(** What the handler reads of the SDK's [GenerateContentResponse]; every
    property is optional there. *)
Record InlineData : Type := mkInlineData {
  part_mimeType : option string;
  part_data : option string
}.

Record Part : Type := mkPart {
  inlineData : option InlineData;
  text : option string
}.

Record Candidate : Type := mkCandidate {
  content_parts : option (option (list Part))
  (* [None]: no [content]; [Some None]: a [content] without [parts] *)
}.

Record Response : Type := mkResponse {
  candidates : option (list Candidate)
}.

(** The environment of a call: [process.env.API_KEY] and the remote
    service, which settles each request one way or the other. *)
Record Env : Type := mkEnv {
  API_KEY : option string;
  generateContent : Request -> Js.Promise Response
}.

(** The object the function resolves to. *)
Record EditResult : Type := mkEditResult {
  res_imageUrl : option string;
  res_text : option string
}.

Definition missingKeyMessage : string :=
  "API Key is missing. Please ensure process.env.API_KEY is available.".

(** [getClient]: throws when the key is missing or empty. *)
Definition getClient (env : Env) : Js.Error + string :=
  match API_KEY env with
  | Some apiKey => if Js.truthy apiKey then inr apiKey
                   else inl (Js.mkError missingKeyMessage)
  | None => inl (Js.mkError missingKeyMessage)
  end.

Definition defaultModel : string := "gemini-2.5-flash-image".
Definition proModel : string := "gemini-3-pro-image-preview".

(** [base64Image.replace(/^data:image\/(png|jpeg|jpg|webp);base64,/, '')]. *)
Definition cleanBase64 (base64Image : string) : string :=
  let try_ (p : string) (k : string) :=
    match Js.stripPrefix p base64Image with Some rest => rest | None => k end in
  try_ "data:image/png;base64,"
    (try_ "data:image/jpeg;base64,"
      (try_ "data:image/jpg;base64,"
        (try_ "data:image/webp;base64," base64Image))).

(** The request the function builds before the [try] block. *)
Definition buildRequest (base64Image mimeType prompt : string)
    (config : EditConfig) : Request :=
  let model :=
    match model config with
    | Some m => Js.or_else m defaultModel
    | None => defaultModel
    end in
  {| req_model := model;
     req_data := cleanBase64 base64Image;
     req_mimeType := mimeType;
     req_text := prompt;
     req_imageConfig :=
       match imageSize config with
       | Some sz => if String.eqb model proModel then Some sz else None
       | None => None
       end |}.

(** The body of the [for] loop over the parts: the last image part and the
    last non-empty text part that is not an image part win. *)
Definition scanPart (acc : option string * option string) (part : Part)
    : option string * option string :=
  match inlineData part with
  | Some d =>
      (Some ("data:" ++ Js.toString (part_mimeType d) ++ ";base64,"
               ++ Js.toString (part_data d)), snd acc)
  | None =>
      match text part with
      | Some t => if Js.truthy t then (fst acc, Some t) else acc
      | None => acc
      end
  end.

Definition scanParts (parts : list Part) : option string * option string :=
  fold_left scanPart parts (None, None).

(** Reading a property of [undefined] throws a [TypeError]; the wording
    of the message is the engine's (V8's here). *)
Definition typeErrorReading (prop : string) : Js.Error :=
  Js.mkError ("Cannot read properties of undefined (reading '" ++ prop ++ "')").

(** The statements after the [await], inside the [try] block. *)
Definition normalize (response : Response) : Js.Error + EditResult :=
  match candidates response with
  | None => inr (mkEditResult None None)
  | Some cs =>
      match cs with
      | [] => inl (typeErrorReading "content")
      | c :: _ =>
          match content_parts c with
          | None => inl (typeErrorReading "parts")
          | Some None => inr (mkEditResult None None)
          | Some (Some parts) =>
              let r := scanParts parts in
              inr (mkEditResult (fst r) (snd r))
          end
      end
  end.

(** [editImageWithGemini]: [getClient] runs before the [try]; the [catch]
    logs the error and throws it again. *)
Definition editImageWithGemini (env : Env)
    (base64Image mimeType prompt : string) (config : EditConfig)
    : Js.Promise EditResult :=
  match getClient env with
  | inl e => Js.Rejected e
  | inr _ =>
      match generateContent env (buildRequest base64Image mimeType prompt config) with
      | Js.Rejected error => Js.Rejected error
      | Js.Resolved response =>
          match normalize response with
          | inl error => Js.Rejected error
          | inr result => Js.Resolved result
          end
      end
  end.

End GeminiService.

(* ------------------------------------------------------------------ *)
(** ** [components/Editor.tsx]: state and handlers *)

Module Editor.
Import Types GeminiService.

Inductive EditorTab : Type := refine | lighting | background | crop | upscale.

(** The [{ x: number, y: number }] of the crop tool, in display pixels. *)
Module Point.
Record t : Type := mk { x : float; y : float }.
End Point.

(** The [useState] cells of the component.  [currentImage] is optional
    because [history[newIndex]] is [undefined] outside the array. *)
Record EditorState : Type := mkEditorState {
  history : list ImageFile;
  historyIndex : nat;
  currentImage : option ImageFile;
  generatedImage : option GeneratedImage;
  status : EditorStatus;
  errorMessage : option string;
  activeTab : EditorTab;
  customPrompt : string;
  targetObject : string;
  editAction : string;
  cropStart : option Point.t;
  cropEnd : option Point.t;
  isDraggingCrop : bool
}.

(** The state of the first render. *)
Definition initialState (initialImage : ImageFile) : EditorState :=
  {| history := [initialImage];
     historyIndex := 0;
     currentImage := Some initialImage;
     generatedImage := None;
     status := READY;
     errorMessage := None;
     activeTab := refine;
     customPrompt := "";
     targetObject := "";
     editAction := "";
     cropStart := None;
     cropEnd := None;
     isDraggingCrop := false |}.

(** *** Handlers

    A handler is a closure over the state [r] of the render that created
    it: every read of a state variable is a read of [r].  Its [set...]
    calls act on the queued state, which becomes the next render. *)
Definition Handler (A : Type) : Type := EditorState -> EditorState * A.

Definition ret {A : Type} (a : A) : Handler A := fun q => (q, a).

Definition bind {A B : Type} (m : Handler A) (k : A -> Handler B) : Handler B :=
  fun q => k (snd (m q)) (fst (m q)).

Declare Scope handler_scope.
Delimit Scope handler_scope with handler.
Bind Scope handler_scope with Handler.
Notation "m ;; k" := (bind m (fun _ => k))
  (at level 100, k at level 200, right associativity) : handler_scope.
Local Open Scope handler_scope.

(** Running a handler of the render [s]: the next state and the value. *)
Definition next {A : Type} (h : EditorState -> Handler A) (s : EditorState)
  : EditorState := fst (h s s).
Definition value {A : Type} (h : EditorState -> Handler A) (s : EditorState)
  : A := snd (h s s).

Definition setHistory (v : list ImageFile) : Handler unit := fun q =>
  (mkEditorState v (historyIndex q) (currentImage q) (generatedImage q)
     (status q) (errorMessage q) (activeTab q) (customPrompt q)
     (targetObject q) (editAction q) (cropStart q) (cropEnd q)
     (isDraggingCrop q), tt).

Definition setHistoryIndex (v : nat) : Handler unit := fun q =>
  (mkEditorState (history q) v (currentImage q) (generatedImage q)
     (status q) (errorMessage q) (activeTab q) (customPrompt q)
     (targetObject q) (editAction q) (cropStart q) (cropEnd q)
     (isDraggingCrop q), tt).

Definition setCurrentImage (v : option ImageFile) : Handler unit := fun q =>
  (mkEditorState (history q) (historyIndex q) v (generatedImage q)
     (status q) (errorMessage q) (activeTab q) (customPrompt q)
     (targetObject q) (editAction q) (cropStart q) (cropEnd q)
     (isDraggingCrop q), tt).

Definition setGeneratedImage (v : option GeneratedImage) : Handler unit := fun q =>
  (mkEditorState (history q) (historyIndex q) (currentImage q) v
     (status q) (errorMessage q) (activeTab q) (customPrompt q)
     (targetObject q) (editAction q) (cropStart q) (cropEnd q)
     (isDraggingCrop q), tt).

Definition setStatus (v : EditorStatus) : Handler unit := fun q =>
  (mkEditorState (history q) (historyIndex q) (currentImage q)
     (generatedImage q) v (errorMessage q) (activeTab q) (customPrompt q)
     (targetObject q) (editAction q) (cropStart q) (cropEnd q)
     (isDraggingCrop q), tt).

Definition setErrorMessage (v : option string) : Handler unit := fun q =>
  (mkEditorState (history q) (historyIndex q) (currentImage q)
     (generatedImage q) (status q) v (activeTab q) (customPrompt q)
     (targetObject q) (editAction q) (cropStart q) (cropEnd q)
     (isDraggingCrop q), tt).

Definition setActiveTab (v : EditorTab) : Handler unit := fun q =>
  (mkEditorState (history q) (historyIndex q) (currentImage q)
     (generatedImage q) (status q) (errorMessage q) v (customPrompt q)
     (targetObject q) (editAction q) (cropStart q) (cropEnd q)
     (isDraggingCrop q), tt).

Definition setCustomPrompt (v : string) : Handler unit := fun q =>
  (mkEditorState (history q) (historyIndex q) (currentImage q)
     (generatedImage q) (status q) (errorMessage q) (activeTab q) v
     (targetObject q) (editAction q) (cropStart q) (cropEnd q)
     (isDraggingCrop q), tt).

Definition setTargetObject (v : string) : Handler unit := fun q =>
  (mkEditorState (history q) (historyIndex q) (currentImage q)
     (generatedImage q) (status q) (errorMessage q) (activeTab q)
     (customPrompt q) v (editAction q) (cropStart q) (cropEnd q)
     (isDraggingCrop q), tt).

Definition setEditAction (v : string) : Handler unit := fun q =>
  (mkEditorState (history q) (historyIndex q) (currentImage q)
     (generatedImage q) (status q) (errorMessage q) (activeTab q)
     (customPrompt q) (targetObject q) v (cropStart q) (cropEnd q)
     (isDraggingCrop q), tt).

Definition setCropStart (v : option Point.t) : Handler unit := fun q =>
  (mkEditorState (history q) (historyIndex q) (currentImage q)
     (generatedImage q) (status q) (errorMessage q) (activeTab q)
     (customPrompt q) (targetObject q) (editAction q) v (cropEnd q)
     (isDraggingCrop q), tt).

Definition setCropEnd (v : option Point.t) : Handler unit := fun q =>
  (mkEditorState (history q) (historyIndex q) (currentImage q)
     (generatedImage q) (status q) (errorMessage q) (activeTab q)
     (customPrompt q) (targetObject q) (editAction q) (cropStart q) v
     (isDraggingCrop q), tt).

Definition setIsDraggingCrop (v : bool) : Handler unit := fun q =>
  (mkEditorState (history q) (historyIndex q) (currentImage q)
     (generatedImage q) (status q) (errorMessage q) (activeTab q)
     (customPrompt q) (targetObject q) (editAction q) (cropStart q)
     (cropEnd q) v, tt).

(** *** History *)

(** [addToHistory]: [slice(0, historyIndex + 1)], [push], and the three
    setters. *)
Definition addToHistory (r : EditorState) (newImage : ImageFile)
  : Handler Js.Value :=
  let newHistory := (take (historyIndex r + 1) (history r) ++ [newImage])%list in
  setHistory newHistory ;;
  setHistoryIndex (length newHistory - 1) ;;
  setCurrentImage (Some newImage) ;;
  ret Js.undefined.

Definition undo (r : EditorState) : Handler Js.Value :=
  if 0 <? historyIndex r then
    let newIndex := historyIndex r - 1 in
    setHistoryIndex newIndex ;;
    setCurrentImage (history r !! newIndex) ;;
    setGeneratedImage None ;;
    ret Js.undefined
  else ret Js.undefined.

(** The guard is [historyIndex < history.length - 1], over the integers. *)
Definition redo (r : EditorState) : Handler Js.Value :=
  if (Z.of_nat (historyIndex r) <? Z.of_nat (length (history r)) - 1)%Z then
    let newIndex := historyIndex r + 1 in
    setHistoryIndex newIndex ;;
    setCurrentImage (history r !! newIndex) ;;
    setGeneratedImage None ;;
    ret Js.undefined
  else ret Js.undefined.

(** *** Remote edits *)

(** The arguments of one [editImageWithGemini] call. *)
Record EditCall : Type := mkEditCall {
  call_base64 : string;
  call_mimeType : string;
  call_prompt : string;
  call_config : EditConfig
}.

Definition noImageMessage : string := "The model did not return an image.".
Definition failedMessage : string := "Failed to generate image.".

(** The [catch] block of [handleGenerate]. *)
Definition handleGenerate_catch (error : Js.Error) : Handler Js.Value :=
  setErrorMessage (Some (Js.or_else (Js.message error) failedMessage)) ;;
  setStatus ERROR ;;
  ret Js.undefined.

(** [handleGenerate] up to its [await]: the value is the call the handler
    is suspended on, if it got that far.  Reading [currentImage.base64]
    happens inside the [try]. *)
Definition handleGenerate (r : EditorState) (finalPrompt : string)
    (isMaskRequest : bool) (config : EditConfig) : Handler (option EditCall) :=
  if negb (Js.truthy (Js.trim finalPrompt)) then ret None
  else
    setStatus PROCESSING ;;
    setErrorMessage None ;;
    match currentImage r with
    | Some img =>
        ret (Some (mkEditCall (base64 img) (mimeType img) finalPrompt config))
    | None =>
        handleGenerate_catch (typeErrorReading "base64") ;;
        ret None
    end.

(** [handleGenerate] after its [await]: [settled] is how the promise of
    [editImageWithGemini] settled and [now] is [Date.now()].  Nothing of
    the render is read here, only the arguments. *)
Definition handleGenerate_resume (finalPrompt : string) (now : Z)
    (settled : Js.Promise EditResult) : Handler Js.Value :=
  match settled with
  | Js.Resolved result =>
      match res_imageUrl result with
      | Some url =>
          if Js.truthy url then
            setGeneratedImage (Some (mkGeneratedImage url finalPrompt now)) ;;
            setStatus COMPLETE ;;
            ret Js.undefined
          else handleGenerate_catch (Js.mkError noImageMessage)
      | None => handleGenerate_catch (Js.mkError noImageMessage)
      end
  | Js.Rejected error => handleGenerate_catch error
  end.

(** [generatedImage.imageUrl.match(/data:([^;]+);/)]: the longest run of
    characters other than a semicolon. *)
Fixpoint spanNotSemicolon (s : string) : string * string :=
  match s with
  | EmptyString => (EmptyString, EmptyString)
  | String c s' =>
      if Ascii.eqb c ";" then (EmptyString, s)
      else (String c (fst (spanNotSemicolon s')), snd (spanNotSemicolon s'))
  end.

(** The pattern tried at the start of [s]: its first group, if it matches.
    The group is greedy, and giving characters back never helps, since the
    character after a shorter run is not a semicolon. *)
Definition mimeMatchHere (s : string) : option string :=
  match Js.stripPrefix "data:" s with
  | Some rest =>
      let run := spanNotSemicolon rest in
      match fst run, snd run with
      | String _ _, String _ _ => Some (fst run)
      | _, _ => None
      end
  | None => None
  end.

(** The pattern is not anchored: the leftmost position where it matches. *)
Fixpoint mimeMatch (s : string) : option string :=
  match mimeMatchHere s with
  | Some m => Some m
  | None =>
      match s with
      | EmptyString => None
      | String _ s' => mimeMatch s'
      end
  end.

(** [handleUseAsSource].  Of the spread [...currentImage] only [file]
    survives the three properties written after it. *)
Definition handleUseAsSource (r : EditorState) : Handler Js.Value :=
  match generatedImage r with
  | Some g =>
      let mimeType :=
        match mimeMatch (imageUrl g) with
        | Some m => m
        | None => "image/png"
        end in
      let newImage :=
        {| file := match currentImage r with
                   | Some cur => file cur
                   | None => None
                   end;
           base64 := imageUrl g;
           previewUrl := imageUrl g;
           mimeType := mimeType |} in
      addToHistory r newImage ;;
      setGeneratedImage None ;;
      setTargetObject "" ;;
      setEditAction "" ;;
      setStatus READY ;;
      ret Js.undefined
  | None => ret Js.undefined
  end.

(** *** Tool handlers *)

Definition handleRefineSubmit (r : EditorState) : Handler (option EditCall) :=
  if negb (Js.truthy (targetObject r)) || negb (Js.truthy (editAction r))
  then ret None
  else
    let prompt := "Select the " ++ targetObject r ++ " and " ++ editAction r ++ "." in
    handleGenerate r prompt false (mkEditConfig None None).

Definition handleVisualizeSelection (r : EditorState) : Handler (option EditCall) :=
  if negb (Js.truthy (targetObject r)) then ret None
  else
    let prompt := "Highlight the " ++ targetObject r
      ++ " with a bright lime green overlay mask. Keep the rest of the image unchanged." in
    handleGenerate r prompt true (mkEditConfig None None).

Definition handlePresetClick (r : EditorState) (presetPrompt : string)
  : Handler (option EditCall) :=
  handleGenerate r presetPrompt false (mkEditConfig None None).

Definition upscalePrompt : string :=
  "High resolution, highly detailed version of this image. Preserve all details and content exactly.".

(** [handleUpscale] where [window.aistudio] is absent, so that nothing is
    awaited before the call of [handleGenerate]. *)
Definition handleUpscale (r : EditorState) (size : ImageSize)
  : Handler (option EditCall) :=
  handleGenerate r upscalePrompt false (mkEditConfig (Some proModel) (Some size)).

(** *** Crop *)

(** [Math.min] and [Math.max] on two numbers: [NaN] is contagious and
    [-0] is below [+0]. *)
Definition Math_min (a b : float) : float :=
  if PrimFloat.is_nan a || PrimFloat.is_nan b then PrimFloat.nan
  else if (a <? b)%float then a
  else if (b <? a)%float then b
  else if PrimFloat.get_sign a then a else b.

Definition Math_max (a b : float) : float :=
  if PrimFloat.is_nan a || PrimFloat.is_nan b then PrimFloat.nan
  else if (a <? b)%float then b
  else if (b <? a)%float then a
  else if PrimFloat.get_sign a then b else a.

Definition Math_abs (a : float) : float := PrimFloat.abs a.

(** What a mouse handler reads of its event: the pointer and the
    bounding rectangle of the image element. *)
Record MouseEvent : Type := mkMouseEvent {
  clientX : float;
  clientY : float;
  target_left : float;
  target_top : float;
  target_width : float;
  target_height : float
}.

Definition isCropTab (t : EditorTab) : bool :=
  match t with crop => true | _ => false end.

Definition handleCropMouseDown (r : EditorState) (e : MouseEvent)
  : Handler Js.Value :=
  if negb (isCropTab (activeTab r)) then ret Js.undefined
  else
    let x := (clientX e - target_left e)%float in
    let y := (clientY e - target_top e)%float in
    setCropStart (Some (Point.mk x y)) ;;
    setCropEnd (Some (Point.mk x y)) ;;
    setIsDraggingCrop true ;;
    ret Js.undefined.

Definition handleCropMouseMove (r : EditorState) (e : MouseEvent)
  : Handler Js.Value :=
  if negb (isDraggingCrop r) || negb (bool_decide (is_Some (cropStart r)))
     || negb (isCropTab (activeTab r))
  then ret Js.undefined
  else
    let x := Math_max 0 (Math_min (clientX e - target_left e) (target_width e)) in
    let y := Math_max 0 (Math_min (clientY e - target_top e) (target_height e)) in
    setCropEnd (Some (Point.mk x y)) ;;
    ret Js.undefined.

Definition handleCropMouseUp (r : EditorState) : Handler Js.Value :=
  setIsDraggingCrop false ;;
  ret Js.undefined.

(** What [applyCrop] reads of the image element behind [imageRef]. *)
Record ImgElement : Type := mkImgElement {
  naturalWidth : float;
  naturalHeight : float;
  rect_width : float;
  rect_height : float
}.

(** One rasterization: the source rectangle handed to [drawImage], in
    natural pixels, and the values assigned to the size of the canvas. *)
Record Raster : Type := mkRaster {
  sx : float;
  sy : float;
  sWidth : float;
  sHeight : float;
  canvas_width : float;
  canvas_height : float
}.

(** The document as [applyCrop] meets it: the mounted image element,
    whether a 2D context can be had, and the browser's encoder. *)
Record Dom : Type := mkDom {
  imageRef_current : option ImgElement;
  getContext2d : bool;
  toDataURL : Raster -> string -> string
}.

(** [applyCrop].  The value is the [drawImage] call that was made, if one
    was.  Reading [currentImage.mimeType] of an [undefined] image throws
    after the drawing and before any setter. *)
Definition applyCrop (dom : Dom) (r : EditorState) : Handler (option Raster) :=
  match imageRef_current dom, cropStart r, cropEnd r with
  | Some img, Some cropStart, Some cropEnd =>
      let scaleX := (naturalWidth img / rect_width img)%float in
      let scaleY := (naturalHeight img / rect_height img)%float in
      let startX := Math_min (Point.x cropStart) (Point.x cropEnd) in
      let startY := Math_min (Point.y cropStart) (Point.y cropEnd) in
      let width := Math_abs (Point.x cropEnd - Point.x cropStart) in
      let height := Math_abs (Point.y cropEnd - Point.y cropStart) in
      if (width <? 10)%float || (height <? 10)%float then ret None
      else if getContext2d dom then
        let drawn :=
          {| sx := (startX * scaleX)%float;
             sy := (startY * scaleY)%float;
             sWidth := (width * scaleX)%float;
             sHeight := (height * scaleY)%float;
             canvas_width := (width * scaleX)%float;
             canvas_height := (height * scaleY)%float |} in
        match currentImage r with
        | Some cur =>
            let croppedBase64 := toDataURL dom drawn (mimeType cur) in
            let newImage :=
              {| file := file cur;
                 base64 := croppedBase64;
                 previewUrl := croppedBase64;
                 mimeType := mimeType cur |} in
            addToHistory r newImage ;;
            setCropStart None ;;
            setCropEnd None ;;
            setGeneratedImage None ;;
            ret (Some drawn)
        | None => ret (Some drawn)
        end
      else ret None
  | _, _, _ => ret None
  end.

Definition resetCrop (r : EditorState) : Handler Js.Value :=
  setCropStart None ;;
  setCropEnd None ;;
  ret Js.undefined.

(** *** The rendered controls *)

Definition LIGHTING_PRESETS : list (string * string) :=
  [ ("Soft Studio", "Apply soft, diffuse studio lighting to the product, removing harsh shadows.");
    ("Natural Sunlight", "Simulate bright, natural sunlight coming from the side with soft shadows.");
    ("Golden Hour", "Apply warm, golden hour lighting to the scene.");
    ("Cyber Neon", "Apply cool blue and magenta neon lighting effects.");
    ("Product Fix", "Fix under and overexposed areas, balance the lighting evenly, and enhance details.") ].

Definition BACKGROUND_PRESETS : list (string * string) :=
  [ ("Pure White", "Change the background to a clean, pure white studio backdrop.");
    ("Luxury Marble", "Place the product on a luxury marble countertop with a blurred background.");
    ("Wooden Table", "Place the object on a rustic wooden table.");
    ("Lifestyle Living Room", "Place the object in a cozy, modern living room setting with bokeh.");
    ("Nature", "Place the object in a peaceful outdoor nature scene with greenery.") ].

(** What the user can do to the rendered component. *)
Inductive UiAction : Type :=
| ClickTab (t : EditorTab)
| ChangeTargetObject (v : string)
| ChangeEditAction (v : string)
| ChangeCustomPrompt (v : string)
| ClickPreviewMask
| ClickApplyEdit
| KeyDownCustomPrompt (key : string)
| ClickCustomPrompt
| ClickPreset (i : nat)
| ClickUpscale (size : ImageSize)
| ClickUndo
| ClickRedo
| KeyDownWindow (key : string) (metaKey ctrlKey shiftKey : bool)
| ClickKeep
| ClickDownload
| MouseDownImage (e : MouseEvent)
| MouseMoveImage (e : MouseEvent)
| MouseUpCanvas
| ClickApplyCrop
| ClickClearSelection.

Definition isProcessing (s : EditorStatus) : bool :=
  match s with PROCESSING => true | _ => false end.

Definition presetsOf (t : EditorTab) : list (string * string) :=
  match t with
  | lighting => LIGHTING_PRESETS
  | background => BACKGROUND_PRESETS
  | _ => []
  end.

(** Whether the control of an action is rendered and not [disabled]. *)
Definition available (s : EditorState) (a : UiAction) : bool :=
  match a with
  | ClickTab _ => true
  | ChangeTargetObject _ | ChangeEditAction _ =>
      match activeTab s with refine => true | _ => false end
  | ChangeCustomPrompt _ =>
      match activeTab s with refine | lighting | background => true | _ => false end
  | ClickPreviewMask =>
      match activeTab s with
      | refine => negb (negb (Js.truthy (targetObject s)) || isProcessing (status s))
      | _ => false
      end
  | ClickApplyEdit =>
      match activeTab s with
      | refine => negb (negb (Js.truthy (targetObject s))
                        || negb (Js.truthy (editAction s))
                        || isProcessing (status s))
      | _ => false
      end
  | KeyDownCustomPrompt _ =>
      match activeTab s with refine => true | _ => false end
  | ClickCustomPrompt =>
      match activeTab s with
      | refine | lighting | background => Js.truthy (Js.trim (customPrompt s))
      | _ => false
      end
  | ClickPreset i =>
      bool_decide (is_Some (presetsOf (activeTab s) !! i))
      && negb (isProcessing (status s))
  | ClickUpscale size =>
      match activeTab s, size with
      | upscale, (size2K | size4K) => negb (isProcessing (status s))
      | _, _ => false
      end
  | ClickUndo => negb (historyIndex s =? 0)
  | ClickRedo =>
      negb (Z.of_nat (historyIndex s) =? Z.of_nat (length (history s)) - 1)%Z
  | KeyDownWindow _ _ _ _ => true
  | ClickKeep | ClickDownload =>
      bool_decide (is_Some (generatedImage s)) && negb (isCropTab (activeTab s))
  | MouseDownImage _ | MouseMoveImage _ => isCropTab (activeTab s)
  | MouseUpCanvas => true
  | ClickApplyCrop | ClickClearSelection =>
      isCropTab (activeTab s) && bool_decide (is_Some (cropStart s))
  end.

(** The window's [keydown] listener: two [if]s in a row. *)
Definition handleKeyDown (r : EditorState) (key : string)
    (metaKey ctrlKey shiftKey : bool) : Handler Js.Value :=
  (if (metaKey || ctrlKey) && String.eqb key "z" && negb shiftKey
   then undo r else ret Js.undefined) ;;
  (if (metaKey || ctrlKey)
      && (String.eqb key "y" || (String.eqb key "z" && shiftKey))
   then redo r else ret Js.undefined) ;;
  ret Js.undefined.

Definition silently (h : Handler Js.Value) : Handler (option EditCall) :=
  h ;; ret None.

(** The handler behind each control; the value is the remote call it
    leaves outstanding, if any. *)
Definition dispatch (dom : Dom) (r : EditorState) (a : UiAction)
  : Handler (option EditCall) :=
  match a with
  | ClickTab t => setActiveTab t ;; ret None
  | ChangeTargetObject v => setTargetObject v ;; ret None
  | ChangeEditAction v => setEditAction v ;; ret None
  | ChangeCustomPrompt v => setCustomPrompt v ;; ret None
  | ClickPreviewMask => handleVisualizeSelection r
  | ClickApplyEdit => handleRefineSubmit r
  | KeyDownCustomPrompt key =>
      if String.eqb key "Enter"
      then handleGenerate r (customPrompt r) false (mkEditConfig None None)
      else ret None
  | ClickCustomPrompt =>
      handleGenerate r (customPrompt r) false (mkEditConfig None None)
  | ClickPreset i =>
      match presetsOf (activeTab r) !! i with
      | Some preset => handlePresetClick r (snd preset)
      | None => ret None
      end
  | ClickUpscale size => handleUpscale r size
  | ClickUndo => silently (undo r)
  | ClickRedo => silently (redo r)
  | KeyDownWindow key metaKey ctrlKey shiftKey =>
      silently (handleKeyDown r key metaKey ctrlKey shiftKey)
  | ClickKeep => silently (handleUseAsSource r)
  | ClickDownload => ret None
  | MouseDownImage e => silently (handleCropMouseDown r e)
  | MouseMoveImage e => silently (handleCropMouseMove r e)
  | MouseUpCanvas => silently (handleCropMouseUp r)
  | ClickApplyCrop => applyCrop dom r ;; ret None
  | ClickClearSelection => silently (resetCrop r)
  end.

(** *** Sessions

    A session is the state of the latest render and the remote calls that
    have been started and have not settled. *)
Record Session : Type := mkSession {
  editor : EditorState;
  outstanding : list EditCall
}.

Definition startSession (initialImage : ImageFile) : Session :=
  {| editor := initialState initialImage; outstanding := [] |}.

Inductive Event : Type :=
| User (a : UiAction) (dom : Dom)
| Settled (i : nat) (env : Env) (now : Z).

Definition settle (env : Env) (c : EditCall) : Js.Promise EditResult :=
  editImageWithGemini env (call_base64 c) (call_mimeType c) (call_prompt c)
    (call_config c).

Definition step (session : Session) (e : Event) : Session :=
  match e with
  | User a dom =>
      if available (editor session) a then
        let done := dispatch dom (editor session) a (editor session) in
        {| editor := fst done;
           outstanding := (outstanding session ++ option_list (snd done))%list |}
      else session
  | Settled i env now =>
      match outstanding session !! i with
      | Some c =>
          {| editor := fst (handleGenerate_resume (call_prompt c) now
                              (settle env c) (editor session));
             outstanding := delete i (outstanding session) |}
      | None => session
      end
  end.

Definition run (session : Session) (es : list Event) : Session :=
  fold_left step es session.

End Editor.

(* ------------------------------------------------------------------ *)
(** ** [components/Editor.tsx]: the upload zone *)

Module UploadZone.
Import Types.

(** What [processFile] reads of a DOM [File]: the object itself and its
    [type]. *)
Record DomFile : Type := mkDomFile {
  handle : File;
  type : string
}.

(** The browser as [processFile] meets it: [fileToBase64] of
    [utils/imageUtils], whose promise settles one way or the other, and
    [URL.createObjectURL], which returns or throws. *)
Record Browser : Type := mkBrowser {
  fileToBase64 : File -> Js.Promise string;
  createObjectURL : File -> Js.Error + string
}.

(** What one call of [processFile] does to the outside: it hands an image
    to [onImageSelected] or it raises an [alert]. *)
Inductive Outcome : Type :=
| Selected (image : ImageFile)
| Alerted (message : string).

Definition notAnImageAlert : string :=
  "Please upload an image file (PNG, JPG, WebP).".
Definition failedAlert : string := "Failed to process image.".

(** [processFile]: the type check, then the [try] block. *)
Definition processFile (browser : Browser) (file : DomFile) : Outcome :=
  match Js.stripPrefix "image/" (type file) with
  | None => Alerted notAnImageAlert
  | Some _ =>
      match fileToBase64 browser (handle file) with
      | Js.Rejected _ => Alerted failedAlert
      | Js.Resolved base64 =>
          match createObjectURL browser (handle file) with
          | inl _ => Alerted failedAlert
          | inr previewUrl =>
              Selected {| Types.file := Some (handle file);
                          Types.previewUrl := previewUrl;
                          Types.base64 := base64;
                          mimeType := type file |}
          end
      end
  end.

(** [handleFileChange] and [handleDrop] both process the first file of the
    list they are given, if there is one; [files] is [None] where the
    optional chain meets [null]. *)
Definition firstFile (files : option (list DomFile)) : option DomFile :=
  match files with
  | Some (file :: _) => Some file
  | _ => None
  end.

Definition handleFileChange (browser : Browser) (files : option (list DomFile))
  : option Outcome :=
  match firstFile files with
  | Some file => Some (processFile browser file)
  | None => None
  end.

(** [handleDrop] also clears [isDragging]; the pair is the new value of
    that cell and the outcome. *)
Definition handleDrop (browser : Browser) (files : option (list DomFile))
  : bool * option Outcome :=
  (false,
   match firstFile files with
   | Some file => Some (processFile browser file)
   | None => None
   end).

End UploadZone.

(* ------------------------------------------------------------------ *)
(** * Properties *)

Import Types GeminiService Editor.

(** ** Vocabulary and sample sessions *)

(** The invariant of the history: it is not empty, the cursor is inside it
    and the current image is the entry under the cursor. *)
Definition wellFormed (s : EditorState) : Prop :=
  1 <= length (history s)
  /\ historyIndex s <= length (history s) - 1
  /\ currentImage s = history s !! historyIndex s.

(** An upload, as [UploadZone] hands it to the editor. *)
Definition photo : ImageFile :=
  {| file := Some (FileHandle 1);
     previewUrl := "blob:https://nanosnap.example/1c9e";
     base64 := "data:image/png;base64,iVBORw0KGgo=";
     mimeType := "image/png" |}.

(** A generated image waiting to be kept. *)
Definition blueUrl : string := "data:image/jpeg;base64,/9j/4AAQSkZJRg==".

Definition pendingBlue : GeneratedImage :=
  {| imageUrl := blueUrl; prompt := "make it blue"; timestamp := 1700000000000 |}.

(** A document with a 400x300 rendering of an 800x600 image. *)
Definition sampleDom : Dom :=
  {| imageRef_current := Some (mkImgElement 800 600 400 300);
     getContext2d := true;
     toDataURL := fun _ mime => "data:" ++ mime ++ ";base64,Q1JPUA==" |}.

(** Three services: one that answers with an image part, one that answers
    with a text part only, and a network that is down. *)
Definition imagePart : Part :=
  {| inlineData := Some (mkInlineData (Some "image/jpeg") (Some "/9j/4AAQSkZJRg=="));
     text := None |}.

Definition textPart : Part :=
  {| inlineData := None; text := Some "I cannot edit this image." |}.

Definition answering (parts : list Part) : Env :=
  {| API_KEY := Some "key";
     generateContent := fun _ =>
       Js.Resolved {| candidates := Some [ {| content_parts := Some (Some parts) |} ] |} |}.

Definition generous : Env := answering [imagePart].

Definition talkative : Env := answering [textPart].

Definition offline : Env :=
  {| API_KEY := Some "key";
     generateContent := fun _ => Js.Rejected (Js.mkError "fetch failed") |}.

(** The fresh session. *)
Definition fresh : EditorState := initialState photo.

(** The user types a prompt into the custom prompt field of the refine tab
    and presses Enter: one call is outstanding. *)
Definition processing : Session :=
  run (startSession photo)
    [ User (ChangeCustomPrompt "make it blue") sampleDom;
      User (KeyDownCustomPrompt "Enter") sampleDom ].

(** The call settles with an image: the result is pending. *)
Definition completed : Session :=
  step processing (Settled 0 generous 1700000000000).

Definition pendingOnFresh : EditorState := editor completed.

(** The user keeps the result: two entries, the cursor on the second. *)
Definition kept : Session := step completed (User ClickKeep sampleDom).

Definition afterKeep : EditorState := editor kept.

(** The user asks for the same edit again and it succeeds again: two
    entries, the cursor on the second, and a result pending. *)
Definition withPending : EditorState :=
  editor (run kept [ User (KeyDownCustomPrompt "Enter") sampleDom;
                     Settled 0 generous 1700000000000 ]).

(** On the crop tab, with the image at (100,50) of the viewport: a drag
    from (10,10) to the point under the pointer. *)
Definition dragTo (clientX clientY : float) : list Event :=
  [ User (ClickTab crop) sampleDom;
    User (MouseDownImage (mkMouseEvent 110 60 100 50 400 300)) sampleDom;
    User (MouseMoveImage (mkMouseEvent clientX clientY 100 50 400 300)) sampleDom;
    User MouseUpCanvas sampleDom ].

(** A drag to (110,60) in the fresh session, and a drag to (15,200), which
    is 5 pixels wide, while a result is pending. *)
Definition draggedWide : EditorState :=
  editor (run (startSession photo) (dragTo 210 110)).

Definition draggedNarrow : EditorState :=
  editor (run completed (dragTo 115 250)).

(** Strings without a semicolon, and the places where the pattern
    [data:([^;]+);] matches with a given first group. *)
Fixpoint semicolonFree (s : string) : bool :=
  match s with
  | EmptyString => true
  | String c s' => negb (Ascii.eqb c ";") && semicolonFree s'
  end.

Definition occursIn (m url : string) : Prop :=
  exists before after : string,
    url = before ++ "data:" ++ m ++ ";" ++ after
    /\ m <> "" /\ semicolonFree m = true.

(** A string of white space only, the empty string included. *)
Fixpoint blank (s : string) : bool :=
  match s with
  | EmptyString => true
  | String c s' => Js.isWhiteSpace c && blank s'
  end.

(** The request that [editImageWithGemini] builds for a call. *)
Definition requestOf (c : EditCall) : Request :=
  buildRequest (call_base64 c) (call_mimeType c) (call_prompt c) (call_config c).

(** The data URL of an image part, as the loop over the parts builds it. *)
Definition dataUrlOf (d : InlineData) : string :=
  "data:" ++ Js.toString (part_mimeType d) ++ ";base64," ++ Js.toString (part_data d).

(** The four image types whose data-URL prefix the client strips. *)
Definition strippedTypes : list string := ["png"; "jpeg"; "jpg"; "webp"].

(** What the status says about the rest of a session: it is one of the
    four statuses the editor sets; [ERROR] comes with a message that is not
    empty; [PROCESSING] comes without a message and with a call
    outstanding. *)
Definition coherent (session : Session) : Prop :=
  (status (editor session) = READY \/ status (editor session) = PROCESSING
   \/ status (editor session) = COMPLETE \/ status (editor session) = ERROR)
  /\ (status (editor session) = ERROR ->
      exists m : string, errorMessage (editor session) = Some m /\ m <> "")
  /\ (status (editor session) = PROCESSING ->
      errorMessage (editor session) = None /\ outstanding session <> []).

(** ** The history *)

Section History.

(** The three cells of the history after [addToHistory], whatever updates
    were queued before it. *)
Lemma addToHistory_cells (r q : EditorState) (newImage : ImageFile) :
  let s' := fst (addToHistory r newImage q) in
  history s' = (take (historyIndex r + 1) (history r) ++ [newImage])%list
  /\ historyIndex s' = length (take (historyIndex r + 1) (history r))
  /\ currentImage s' = Some newImage.
Proof.
  cbn. rewrite length_app. cbn. repeat split. lia.
Qed.

(** A handler that only touches other cells keeps the invariant. *)
Lemma wellFormed_cells (s s' : EditorState) :
  history s' = history s -> historyIndex s' = historyIndex s ->
  currentImage s' = currentImage s -> wellFormed s -> wellFormed s'.
Proof.
  unfold wellFormed. intros -> -> ->. trivial.
Qed.

Lemma wellFormed_cursor (s : EditorState) :
  wellFormed s <->
  historyIndex s < length (history s)
  /\ currentImage s = history s !! historyIndex s.
Proof. unfold wellFormed. split; intros H; repeat split; try tauto; lia. Qed.

Lemma wellFormed_initialState (initialImage : ImageFile) :
  wellFormed (initialState initialImage).
Proof. unfold wellFormed. cbn. auto. Qed.

Lemma wellFormed_addToHistory (r q : EditorState) (newImage : ImageFile) :
  wellFormed (fst (addToHistory r newImage q)).
Proof.
  destruct (addToHistory_cells r q newImage) as (Hh & Hi & Hc).
  apply wellFormed_cursor. rewrite Hh, Hi, Hc, length_app. cbn.
  split; [lia|].
  symmetry. apply list_lookup_middle. reflexivity.
Qed.

Lemma wellFormed_undo (s : EditorState) : wellFormed s -> wellFormed (next undo s).
Proof.
  intros H. apply wellFormed_cursor in H as [Hlt Hcur].
  unfold next, undo. destruct (Nat.ltb_spec 0 (historyIndex s)); cbn.
  - apply wellFormed_cursor. cbn. split; [lia | reflexivity].
  - apply wellFormed_cursor. auto.
Qed.

Lemma wellFormed_redo (s : EditorState) : wellFormed s -> wellFormed (next redo s).
Proof.
  intros H. apply wellFormed_cursor in H as [Hlt Hcur].
  unfold next, redo.
  destruct (Z.ltb_spec (Z.of_nat (historyIndex s)) (Z.of_nat (length (history s)) - 1)); cbn.
  - apply wellFormed_cursor. cbn. split; [lia | reflexivity].
  - apply wellFormed_cursor. auto.
Qed.

Lemma wellFormed_current (s : EditorState) :
  wellFormed s ->
  exists image, history s !! historyIndex s = Some image /\ currentImage s = Some image.
Proof.
  intros H. apply wellFormed_cursor in H as [Hlt Hcur].
  destruct (lookup_lt_is_Some_2 (history s) (historyIndex s) Hlt) as [image Hi].
  exists image. rewrite Hcur. auto.
Qed.

End History.

Section Invariant.

(** The shape [addToHistory] leaves behind is well formed. *)
Lemma wellFormed_committed (s' : EditorState) (h : list ImageFile) (image : ImageFile) :
  history s' = (h ++ [image])%list ->
  historyIndex s' = length (h ++ [image])%list - 1 ->
  currentImage s' = Some image ->
  wellFormed s'.
Proof.
  intros Hh Hi Hc. apply wellFormed_cursor. rewrite Hh, Hi, Hc, length_app. cbn.
  split; [lia|].
  replace (length h + 1 - 1) with (length h) by lia.
  symmetry. apply list_lookup_middle. reflexivity.
Qed.

Lemma wellFormed_undo_queued (r q : EditorState) :
  wellFormed r -> wellFormed q -> history q = history r ->
  wellFormed (fst (undo r q)) /\ history (fst (undo r q)) = history r.
Proof.
  intros Hr Hq Hh. apply wellFormed_cursor in Hr as [Hlt Hcur].
  unfold undo. destruct (Nat.ltb_spec 0 (historyIndex r)); cbn; [|auto].
  split; [|assumption]. apply wellFormed_cursor. cbn. rewrite Hh. split; [lia | reflexivity].
Qed.

Lemma wellFormed_redo_queued (r q : EditorState) :
  wellFormed r -> wellFormed q -> history q = history r ->
  wellFormed (fst (redo r q)) /\ history (fst (redo r q)) = history r.
Proof.
  intros Hr Hq Hh. apply wellFormed_cursor in Hr as [Hlt Hcur].
  unfold redo.
  destruct (Z.ltb_spec (Z.of_nat (historyIndex r)) (Z.of_nat (length (history r)) - 1));
    cbn; [|auto].
  split; [|assumption]. apply wellFormed_cursor. cbn. rewrite Hh. split; [lia | reflexivity].
Qed.

Lemma wellFormed_handleKeyDown (s : EditorState) (key : string) (m c sh : bool) :
  wellFormed s -> wellFormed (next (fun r => handleKeyDown r key m c sh) s).
Proof.
  intros H. unfold next, handleKeyDown, bind. cbn [fst snd ret].
  set (q := fst ((if (m || c) && String.eqb key "z" && negb sh
                  then undo s else ret Js.undefined) s)).
  assert (Hq : wellFormed q /\ history q = history s).
  { subst q. destruct ((m || c) && String.eqb key "z" && negb sh).
    - apply wellFormed_undo_queued; auto.
    - cbn. auto. }
  destruct Hq as [Hq Hh].
  destruct ((m || c) && (String.eqb key "y" || String.eqb key "z" && sh)).
  - apply wellFormed_redo_queued; auto.
  - exact Hq.
Qed.

Lemma wellFormed_handleGenerate (s : EditorState) (p : string) (mask : bool)
    (config : EditConfig) :
  wellFormed s -> wellFormed (next (fun r => handleGenerate r p mask config) s).
Proof.
  unfold next, handleGenerate.
  destruct (negb (Js.truthy (Js.trim p))); [trivial|].
  destruct (currentImage s); apply wellFormed_cells; reflexivity.
Qed.

Lemma wellFormed_handleGenerate_resume (s : EditorState) (p : string) (now : Z)
    (settled : Js.Promise EditResult) :
  wellFormed s -> wellFormed (fst (handleGenerate_resume p now settled s)).
Proof.
  unfold handleGenerate_resume.
  destruct settled as [[[url|] t]|e]; cbn [res_imageUrl];
    try destruct (Js.truthy url); apply wellFormed_cells; reflexivity.
Qed.

Lemma wellFormed_handleUseAsSource (s : EditorState) :
  wellFormed s -> wellFormed (next handleUseAsSource s).
Proof.
  unfold next, handleUseAsSource. destruct (generatedImage s); [|trivial].
  intros _. eapply wellFormed_committed; reflexivity.
Qed.

Lemma wellFormed_applyCrop (dom : Dom) (s : EditorState) :
  wellFormed s -> wellFormed (next (applyCrop dom) s).
Proof.
  unfold next, applyCrop.
  destruct (imageRef_current dom), (cropStart s), (cropEnd s); trivial.
  destruct (_ || _); [trivial|].
  destruct (getContext2d dom); [|trivial].
  destruct (currentImage s); [|trivial].
  intros _. eapply wellFormed_committed; reflexivity.
Qed.

(** Closes a goal [wellFormed s'] where the handler left the three cells
    of the history alone. *)
Ltac untouched H := revert H; apply wellFormed_cells; reflexivity.

(** Every control keeps the invariant. *)
Lemma wellFormed_dispatch (dom : Dom) (s : EditorState) (a : UiAction) :
  wellFormed s -> wellFormed (fst (dispatch dom s a s)).
Proof.
  intros H. destruct a; cbn [dispatch silently].
  - untouched H.
  - untouched H.
  - untouched H.
  - untouched H.
  - unfold handleVisualizeSelection. destruct (negb _); [exact H|].
    now apply wellFormed_handleGenerate.
  - unfold handleRefineSubmit. destruct (_ || _); [exact H|].
    now apply wellFormed_handleGenerate.
  - destruct (String.eqb key "Enter"); [|exact H].
    now apply (wellFormed_handleGenerate s (customPrompt s)).
  - now apply (wellFormed_handleGenerate s (customPrompt s)).
  - destruct (presetsOf (activeTab s) !! i); [|exact H].
    now apply wellFormed_handleGenerate.
  - now apply wellFormed_handleGenerate.
  - now apply wellFormed_undo.
  - now apply wellFormed_redo.
  - now apply wellFormed_handleKeyDown.
  - now apply wellFormed_handleUseAsSource.
  - exact H.
  - unfold handleCropMouseDown. destruct (negb _); [exact H|].
    untouched H.
  - unfold handleCropMouseMove. destruct (_ || _); [exact H|].
    untouched H.
  - untouched H.
  - now apply wellFormed_applyCrop.
  - untouched H.
Qed.

Lemma wellFormed_step (session : Session) (e : Event) :
  wellFormed (editor session) -> wellFormed (editor (step session e)).
Proof.
  intros H. destruct e as [a dom|i env now]; cbn [step].
  - destruct (available (editor session) a); [|exact H].
    cbn. now apply wellFormed_dispatch.
  - destruct (outstanding session !! i); [|exact H].
    cbn. now apply wellFormed_handleGenerate_resume.
Qed.

Lemma wellFormed_run (es : list Event) (session : Session) :
  wellFormed (editor session) -> wellFormed (editor (run session es)).
Proof.
  revert session. induction es as [|e es IH]; intros session H; cbn; [exact H|].
  apply IH. now apply wellFormed_step.
Qed.

End Invariant.

Section HistoryClaims.

(** C3: [addToHistory] keeps the entries up to the cursor, drops the ones
    after it, appends the new image and moves the cursor onto it; the
    history is one longer than the cursor afterwards, and every entry at or
    before the old cursor is where it was. *)
Theorem addToHistory_commit (r q : EditorState) (newImage : ImageFile) :
  let s' := fst (addToHistory r newImage q) in
  history s' = (take (historyIndex r + 1) (history r) ++ [newImage])%list
  /\ historyIndex s' = length (history s') - 1
  /\ length (history s') = historyIndex s' + 1
  /\ history s' !! historyIndex s' = Some newImage
  /\ currentImage s' = Some newImage
  /\ (forall (i : nat) (image : ImageFile),
        i <= historyIndex r -> history r !! i = Some image ->
        history s' !! i = Some image)
  /\ (forall i : nat, historyIndex r < i -> i < length (history r) ->
        history s' !! i = (if decide (i = historyIndex r + 1)
                          then Some newImage else None)).
Proof.
  destruct (addToHistory_cells r q newImage) as (Hh & Hi & Hc).
  cbv zeta. rewrite Hh, Hi, Hc, length_app. cbn [length].
  repeat split.
  - lia.
  - apply list_lookup_middle. reflexivity.
  - intros i image Hle Hi'.
    rewrite lookup_app_l by (rewrite length_take; apply lookup_lt_Some in Hi'; lia).
    rewrite lookup_take_lt by lia. exact Hi'.
  - intros i Hlt Hlen.
    assert (Hk : length (take (historyIndex r + 1) (history r)) = historyIndex r + 1)
      by (rewrite length_take; lia).
    destruct (decide (i = historyIndex r + 1)) as [->|Hne].
    + apply list_lookup_middle. lia.
    + apply lookup_ge_None_2. rewrite length_app. cbn. lia.
Qed.

(** C4: the history is never empty and the cursor always points into it:
    this holds in the first render and every operation keeps it, the three
    history operations as well as every step of a session; so the current
    image is always the entry under the cursor. *)
Theorem history_invariant :
  (forall initialImage : ImageFile, wellFormed (initialState initialImage))
  /\ (forall (s : EditorState) (newImage : ImageFile),
        wellFormed s -> wellFormed (next (fun r => addToHistory r newImage) s))
  /\ (forall s : EditorState, wellFormed s -> wellFormed (next undo s))
  /\ (forall s : EditorState, wellFormed s -> wellFormed (next redo s))
  /\ (forall (session : Session) (e : Event),
        wellFormed (editor session) -> wellFormed (editor (step session e)))
  /\ (forall (initialImage : ImageFile) (es : list Event),
        wellFormed (editor (run (startSession initialImage) es)))
  /\ (forall s : EditorState, wellFormed s ->
        exists image : ImageFile,
          history s !! historyIndex s = Some image /\ currentImage s = Some image).
Proof.
  split; [exact wellFormed_initialState|].
  split; [intros s newImage _; apply wellFormed_addToHistory|].
  split; [exact wellFormed_undo|].
  split; [exact wellFormed_redo|].
  split; [exact wellFormed_step|].
  split; [|exact wellFormed_current].
  intros initialImage es. apply wellFormed_run. apply wellFormed_initialState.
Qed.

Lemma history_invariant_witness :
  wellFormed afterKeep
  /\ wellFormed (next undo afterKeep)
  /\ exists image : ImageFile,
       history (next undo afterKeep) !! historyIndex (next undo afterKeep) = Some image
       /\ currentImage (next undo afterKeep) = Some image.
Proof.
  assert (H : wellFormed afterKeep).
  { unfold wellFormed. vm_compute. repeat split; lia. }
  destruct history_invariant as (_ & _ & Hundo & _ & _ & _ & Hcur).
  split; [exact H|]. split; [apply Hundo, H|]. apply Hcur, Hundo, H.
Defined.

Lemma addToHistory_commit_witness :
  history (fst (addToHistory (next undo afterKeep) photo (next undo afterKeep)))
    = [photo; photo]
  /\ historyIndex (fst (addToHistory (next undo afterKeep) photo (next undo afterKeep))) = 1.
Proof.
  destruct (addToHistory_commit (next undo afterKeep) (next undo afterKeep) photo)
    as (Hh & Hi & _).
  rewrite Hi, Hh. split; reflexivity.
Defined.

End HistoryClaims.

Section UndoRedoClaims.

(** What [undo] does when the cursor can move back. *)
Lemma undo_moves (s : EditorState) :
  0 < historyIndex s ->
  next undo s =
    fst ((setHistoryIndex (historyIndex s - 1) ;;
          setCurrentImage (history s !! (historyIndex s - 1)) ;;
          setGeneratedImage None ;; ret Js.undefined)%handler s).
Proof.
  intros H. unfold next, undo.
  destruct (Nat.ltb_spec 0 (historyIndex s)); [reflexivity | lia].
Qed.

(** What [redo] does when the cursor can move forward. *)
Lemma redo_moves (s : EditorState) :
  historyIndex s + 1 < length (history s) ->
  next redo s =
    fst ((setHistoryIndex (historyIndex s + 1) ;;
          setCurrentImage (history s !! (historyIndex s + 1)) ;;
          setGeneratedImage None ;; ret Js.undefined)%handler s).
Proof.
  intros H. unfold next, redo.
  destruct (Z.ltb_spec (Z.of_nat (historyIndex s)) (Z.of_nat (length (history s)) - 1));
    [reflexivity | lia].
Qed.

(** Neither handler has a [return] statement. *)
Lemma undo_redo_value (s : EditorState) :
  value undo s = Js.undefined /\ value redo s = Js.undefined.
Proof.
  unfold value, undo, redo. split.
  - destruct (0 <? historyIndex s); reflexivity.
  - destruct (_ <? _)%Z; reflexivity.
Qed.

(** C9, as the code has it: [undo] with the cursor on the first entry and
    [redo] with the cursor on the last entry change nothing of the state;
    their value is [undefined] there, as it is when they do move the
    cursor, and never a boolean. *)
Theorem undo_redo_at_the_ends (s : EditorState) :
  (historyIndex s = 0 ->
     next undo s = s /\ value undo s = Js.undefined)
  /\ (Z.of_nat (historyIndex s) = (Z.of_nat (length (history s)) - 1)%Z ->
     next redo s = s /\ value redo s = Js.undefined)
  /\ (forall b : bool, value undo s <> Js.boolean b /\ value redo s <> Js.boolean b).
Proof.
  destruct (undo_redo_value s) as [Hu Hr].
  split; [|split].
  - intros H0. split; [|exact Hu]. unfold next, undo. rewrite H0. reflexivity.
  - intros Hlast. split; [|exact Hr]. unfold next, redo.
    destruct (Z.ltb_spec (Z.of_nat (historyIndex s)) (Z.of_nat (length (history s)) - 1));
      [lia | reflexivity].
  - intros b. rewrite Hu, Hr. split; discriminate.
Qed.

Lemma undo_redo_at_the_ends_witness :
  (next undo fresh = fresh /\ value undo fresh = Js.undefined)
  /\ (next redo afterKeep = afterKeep /\ value redo afterKeep = Js.undefined).
Proof.
  split.
  - apply (undo_redo_at_the_ends fresh). reflexivity.
  - apply (undo_redo_at_the_ends afterKeep). reflexivity.
Defined.

(** C9 fails as stated: with the cursor on the first entry [undo] leaves
    the state alone, but what it returns is [undefined], not [false]. *)
Lemma undo_returns_no_boolean :
  historyIndex fresh = 0
  /\ ~ (value undo fresh = Js.boolean false /\ next undo fresh = fresh).
Proof.
  split; [reflexivity|]. intros [H _]. vm_compute in H. discriminate H.
Qed.

(** C6, as the code has it: where the cursor can move, [undo] and [redo]
    move it by one, make the entry under it the current image and drop the
    pending generated image; the status and the error message stay as they
    were, whatever the status is. *)
Theorem undo_redo_move_and_drop_preview (s : EditorState) :
  (0 < historyIndex s ->
     let s' := next undo s in
     historyIndex s' = historyIndex s - 1
     /\ currentImage s' = history s !! (historyIndex s - 1)
     /\ generatedImage s' = None
     /\ history s' = history s
     /\ status s' = status s
     /\ errorMessage s' = errorMessage s)
  /\ (historyIndex s + 1 < length (history s) ->
     let s' := next redo s in
     historyIndex s' = historyIndex s + 1
     /\ currentImage s' = history s !! (historyIndex s + 1)
     /\ generatedImage s' = None
     /\ history s' = history s
     /\ status s' = status s
     /\ errorMessage s' = errorMessage s).
Proof.
  split; intros H; cbv zeta.
  - rewrite (undo_moves s H). cbn. repeat split.
  - rewrite (redo_moves s H). cbn. repeat split.
Qed.

Lemma undo_redo_move_and_drop_preview_witness :
  (historyIndex (next undo withPending) = 0
   /\ currentImage (next undo withPending) = Some photo
   /\ generatedImage (next undo withPending) = None
   /\ status (next undo withPending) = COMPLETE)
  /\ historyIndex (next redo (next undo withPending)) = 1.
Proof.
  split.
  - destruct (proj1 (undo_redo_move_and_drop_preview withPending))
      as (Hi & Hc & Hg & _ & Hs & _).
    + vm_compute. lia.
    + rewrite Hi, Hc, Hg, Hs. repeat split.
  - destruct (proj2 (undo_redo_move_and_drop_preview (next undo withPending)))
      as (Hi & _).
    + vm_compute. lia.
    + rewrite Hi. reflexivity.
Defined.

(** C6 fails as stated: [undo] in a state that is [COMPLETE] with a result
    pending drops the result and leaves the status [COMPLETE]. *)
Lemma undo_does_not_force_ready :
  status withPending = COMPLETE
  /\ generatedImage withPending = Some pendingBlue
  /\ historyIndex withPending = 1
  /\ generatedImage (next undo withPending) = None
  /\ status (next undo withPending) = COMPLETE
  /\ status (next undo withPending) <> READY.
Proof.
  repeat split; discriminate.
Qed.

End UndoRedoClaims.

Section RemoteClaims.

(** [handleGenerate] does not look at the status: a prompt that is not
    blank always starts a call on the current image. *)
Lemma handleGenerate_dispatches (s : EditorState) (p : string) (mask : bool)
    (config : EditConfig) (image : ImageFile) :
  Js.truthy (Js.trim p) = true ->
  currentImage s = Some image ->
  value (fun r => handleGenerate r p mask config) s
    = Some (mkEditCall (base64 image) (mimeType image) p config)
  /\ status (next (fun r => handleGenerate r p mask config) s) = PROCESSING.
Proof.
  intros Hp Hc. unfold value, next, handleGenerate. rewrite Hp, Hc. split; reflexivity.
Qed.

(** C1 fails on the code: while a call is outstanding and the status is
    [PROCESSING], Enter in the custom prompt field (and the button next to
    it) is still live and [handleGenerate] starts a second call, which is
    still outstanding when the first one has settled; the preset buttons of
    the lighting tab are disabled in the same status. *)
Theorem second_call_while_processing :
  status (editor processing) = PROCESSING
  /\ length (outstanding processing) = 1
  /\ available (editor processing) (KeyDownCustomPrompt "Enter") = true
  /\ available (editor processing) ClickCustomPrompt = true
  /\ available (editor (step processing (User (ClickTab lighting) sampleDom)))
       (ClickPreset 0) = false
  /\ status (editor (step processing (User (KeyDownCustomPrompt "Enter") sampleDom)))
       = PROCESSING
  /\ length (outstanding (step processing (User (KeyDownCustomPrompt "Enter") sampleDom)))
       = 2
  /\ (let first_settled :=
        run processing [ User (KeyDownCustomPrompt "Enter") sampleDom;
                         Settled 0 generous 1700000000000 ] in
      status (editor first_settled) = COMPLETE
      /\ length (outstanding first_settled) = 1).
Proof. repeat split. Qed.

(** The loop over parts that hold no image: no image URL appears, and a
    text is found as soon as one part has a text that is not empty. *)
Lemma scanParts_without_image (parts : list Part) (acc : option string * option string) :
  Forall (fun p => inlineData p = None) parts ->
  fst (fold_left scanPart parts acc) = fst acc
  /\ (is_Some (snd acc)
      \/ Exists (fun p => exists t, text p = Some t /\ Js.truthy t = true) parts ->
      is_Some (snd (fold_left scanPart parts acc))).
Proof.
  intros H. revert acc. induction H as [|p parts Hp _ IH]; intros acc; cbn.
  - split; [reflexivity|]. intros [Hacc|Hex]; [exact Hacc | inversion Hex].
  - destruct (IH (scanPart acc p)) as [IHf IHs].
    assert (Hf : fst (scanPart acc p) = fst acc).
    { unfold scanPart. rewrite Hp.
      destruct (text p) as [t|]; [destruct (Js.truthy t)|]; reflexivity. }
    split; [rewrite IHf; exact Hf|].
    intros Hsome. apply IHs.
    destruct Hsome as [Hacc|Hex].
    + left. unfold scanPart. rewrite Hp.
      destruct (text p) as [t|]; [destruct (Js.truthy t)|]; cbn; eauto.
    + apply Exists_cons in Hex as [(t & Ht & Htruthy)|Hex]; [left | right; exact Hex].
      unfold scanPart. rewrite Hp, Ht, Htruthy. cbn. eauto.
Qed.

Lemma scanParts_text_only (parts : list Part) :
  Forall (fun p => inlineData p = None) parts ->
  Exists (fun p => exists t, text p = Some t /\ Js.truthy t = true) parts ->
  exists t, scanParts parts = (None, Some t).
Proof.
  intros Hall Hex. unfold scanParts.
  destruct (scanParts_without_image parts (None, None) Hall) as [Hf Hs].
  destruct Hs as [t Ht]; [right; exact Hex|].
  exists t. destruct (fold_left scanPart parts (None, None)) as [u v].
  cbn in *. congruence.
Qed.

(** The [catch] block: the status and the message it leaves. *)
Lemma handleGenerate_catch_cells (error : Js.Error) (s : EditorState) :
  let s' := fst (handleGenerate_catch error s) in
  status s' = ERROR
  /\ errorMessage s' = Some (Js.or_else (Js.message error) failedMessage)
  /\ generatedImage s' = generatedImage s
  /\ history s' = history s
  /\ historyIndex s' = historyIndex s
  /\ currentImage s' = currentImage s.
Proof. cbn. repeat split. Qed.

(** C5: when the service answers with parts that hold a text and no image,
    the call resolves without an image URL and the controller goes to
    [ERROR], never to [COMPLETE]; the message it stores is the default one,
    "The model did not return an image."; it stores no generated image, and
    the history is untouched. *)
Theorem text_only_response_fails (session : Session) (i : nat) (c : EditCall)
    (env : Env) (now : Z) (key : string) (response : Response)
    (candidate : Candidate) (others : list Candidate) (parts : list Part) :
  outstanding session !! i = Some c ->
  getClient env = inr key ->
  generateContent env
    (buildRequest (call_base64 c) (call_mimeType c) (call_prompt c) (call_config c))
    = Js.Resolved response ->
  candidates response = Some (candidate :: others) ->
  content_parts candidate = Some (Some parts) ->
  Forall (fun p => inlineData p = None) parts ->
  Exists (fun p => exists t, text p = Some t /\ Js.truthy t = true) parts ->
  let session' := step session (Settled i env now) in
  (exists t, settle env c = Js.Resolved (mkEditResult None (Some t)))
  /\ status (editor session') = ERROR
  /\ status (editor session') <> COMPLETE
  /\ errorMessage (editor session') = Some noImageMessage
  /\ generatedImage (editor session') = generatedImage (editor session)
  /\ history (editor session') = history (editor session)
  /\ historyIndex (editor session') = historyIndex (editor session)
  /\ currentImage (editor session') = currentImage (editor session).
Proof.
  intros Hc Hkey Hresp Hcand Hparts Hall Hex.
  destruct (scanParts_text_only parts Hall Hex) as [t Ht].
  assert (Hsettle : settle env c = Js.Resolved (mkEditResult None (Some t))).
  { unfold settle, editImageWithGemini, normalize.
    rewrite Hkey, Hresp, Hcand, Hparts, Ht. reflexivity. }
  cbv zeta. cbn [step]. rewrite Hc, Hsettle. cbn.
  repeat split; [eauto | discriminate].
Qed.

Lemma text_only_response_fails_witness :
  status (editor (step processing (Settled 0 talkative 1700000000000))) = ERROR
  /\ errorMessage (editor (step processing (Settled 0 talkative 1700000000000)))
       = Some noImageMessage.
Proof.
  pose proof (text_only_response_fails processing 0
                (mkEditCall (base64 photo) (mimeType photo) "make it blue"
                   (mkEditConfig None None))
                talkative 1700000000000 "key"
                {| candidates := Some [ {| content_parts := Some (Some [textPart]) |} ] |}
                {| content_parts := Some (Some [textPart]) |} [] [textPart]
                eq_refl eq_refl eq_refl eq_refl eq_refl) as H.
  destruct H as (_ & Hs & _ & Hm & _).
  - repeat constructor.
  - constructor. exists "I cannot edit this image.". split; reflexivity.
  - split; assumption.
Defined.

(** C2, as the code has it: when the remote call fails, the [catch] block
    of [editImageWithGemini] logs the error and throws it again, so the
    promise is rejected with that very error; it is [handleGenerate] that
    catches it, stores its message (or "Failed to generate image." when the
    message is empty) and sets the status to [ERROR]. *)
Theorem remote_failure_is_rethrown (env : Env) (base64Image mimeType prompt : string)
    (config : EditConfig) (key : string) (error : Js.Error) :
  getClient env = inr key ->
  generateContent env (buildRequest base64Image mimeType prompt config)
    = Js.Rejected error ->
  editImageWithGemini env base64Image mimeType prompt config = Js.Rejected error
  /\ forall (s : EditorState) (now : Z),
       let s' := fst (handleGenerate_resume prompt now
                        (editImageWithGemini env base64Image mimeType prompt config) s) in
       status s' = ERROR
       /\ errorMessage s' = Some (Js.or_else (Js.message error) failedMessage)
       /\ generatedImage s' = generatedImage s
       /\ history s' = history s.
Proof.
  intros Hkey Hfail.
  assert (H : editImageWithGemini env base64Image mimeType prompt config = Js.Rejected error).
  { unfold editImageWithGemini. rewrite Hkey, Hfail. reflexivity. }
  split; [exact H|]. intros s now. rewrite H. cbn. repeat split.
Qed.

Lemma remote_failure_is_rethrown_witness :
  editImageWithGemini offline (base64 photo) (mimeType photo) "make it blue"
    (mkEditConfig None None) = Js.Rejected (Js.mkError "fetch failed").
Proof.
  apply (remote_failure_is_rethrown offline (base64 photo) (mimeType photo)
           "make it blue" (mkEditConfig None None) "key" (Js.mkError "fetch failed"));
    reflexivity.
Defined.

(** C2 fails as stated: with the network down the promise of
    [editImageWithGemini] is rejected; it resolves to no result at all. *)
Lemma transport_failure_rejects :
  generateContent offline
    (buildRequest (base64 photo) (mimeType photo) "make it blue" (mkEditConfig None None))
    = Js.Rejected (Js.mkError "fetch failed")
  /\ editImageWithGemini offline (base64 photo) (mimeType photo) "make it blue"
       (mkEditConfig None None) = Js.Rejected (Js.mkError "fetch failed")
  /\ ~ (exists result : EditResult,
         editImageWithGemini offline (base64 photo) (mimeType photo) "make it blue"
           (mkEditConfig None None) = Js.Resolved result).
Proof.
  repeat split. intros [result H]. discriminate H.
Qed.

End RemoteClaims.

Section CropClaims.

(** The rectangle [applyCrop] draws from: each axis is scaled by its own
    ratio of natural size to displayed size. *)
Lemma applyCrop_drawn (dom : Dom) (r : EditorState) (img : ImgElement) (a b : Point.t) :
  imageRef_current dom = Some img ->
  cropStart r = Some a -> cropEnd r = Some b ->
  getContext2d dom = true ->
  ((Math_abs (Point.x b - Point.x a) <? 10)%float
   || (Math_abs (Point.y b - Point.y a) <? 10)%float) = false ->
  let scaleX := (naturalWidth img / rect_width img)%float in
  let scaleY := (naturalHeight img / rect_height img)%float in
  value (applyCrop dom) r =
    Some {| sx := (Math_min (Point.x a) (Point.x b) * scaleX)%float;
            sy := (Math_min (Point.y a) (Point.y b) * scaleY)%float;
            sWidth := (Math_abs (Point.x b - Point.x a) * scaleX)%float;
            sHeight := (Math_abs (Point.y b - Point.y a) * scaleY)%float;
            canvas_width := (Math_abs (Point.x b - Point.x a) * scaleX)%float;
            canvas_height := (Math_abs (Point.y b - Point.y a) * scaleY)%float |}.
Proof.
  intros Hi Ha Hb Hc Hg. unfold value, applyCrop.
  rewrite Hi, Ha, Hb, Hg, Hc.
  destruct (currentImage r); reflexivity.
Qed.

(** C7: the rectangle that is drawn has its corner and its size in natural
    pixels, the horizontal ones scaled by naturalWidth / displayed width and
    the vertical ones by naturalHeight / displayed height; with an 800x600
    image displayed at 400x300, a drag from (10,10) to (110,60) is drawn
    from the rectangle at (20,20) of width 200 and height 100. *)
Theorem crop_maps_to_natural_pixels (dom : Dom) (r : EditorState)
    (img : ImgElement) (a b : Point.t) :
  imageRef_current dom = Some img ->
  getContext2d dom = true ->
  cropStart r = Some a ->
  cropEnd r = Some b ->
  ((Math_abs (Point.x b - Point.x a) <? 10)%float
   || (Math_abs (Point.y b - Point.y a) <? 10)%float) = false ->
  let scaleX := (naturalWidth img / rect_width img)%float in
  let scaleY := (naturalHeight img / rect_height img)%float in
  value (applyCrop dom) r =
    Some {| sx := (Math_min (Point.x a) (Point.x b) * scaleX)%float;
            sy := (Math_min (Point.y a) (Point.y b) * scaleY)%float;
            sWidth := (Math_abs (Point.x b - Point.x a) * scaleX)%float;
            sHeight := (Math_abs (Point.y b - Point.y a) * scaleY)%float;
            canvas_width := (Math_abs (Point.x b - Point.x a) * scaleX)%float;
            canvas_height := (Math_abs (Point.y b - Point.y a) * scaleY)%float |}
  /\ (img = mkImgElement 800 600 400 300 ->
      a = Point.mk 10 10 -> b = Point.mk 110 60 ->
      value (applyCrop dom) r = Some (mkRaster 20 20 200 100 200 100)).
Proof.
  intros Hi Hc Ha Hb Hg. cbv zeta.
  rewrite (applyCrop_drawn dom r img a b Hi Ha Hb Hc Hg).
  split; [reflexivity|]. intros -> -> ->. reflexivity.
Qed.

Lemma crop_maps_to_natural_pixels_witness :
  value (applyCrop sampleDom) (draggedWide)
    = Some (mkRaster 20 20 200 100 200 100).
Proof.
  apply (crop_maps_to_natural_pixels sampleDom (draggedWide)
           (mkImgElement 800 600 400 300) (Point.mk 10 10) (Point.mk 110 60));
    reflexivity.
Defined.

(** C8: when the selection is less than 10 display pixels wide or less
    than 10 display pixels high, [applyCrop] returns before it creates a
    canvas: nothing is drawn and the state is the one it was called in. *)
Theorem tiny_crop_is_ignored (dom : Dom) (r : EditorState) (a b : Point.t) :
  cropStart r = Some a -> cropEnd r = Some b ->
  (Math_abs (Point.x b - Point.x a) <? 10)%float = true
  \/ (Math_abs (Point.y b - Point.y a) <? 10)%float = true ->
  next (applyCrop dom) r = r
  /\ value (applyCrop dom) r = None
  /\ forall session : Session, editor session = r ->
       step session (User ClickApplyCrop dom) = session.
Proof.
  intros Ha Hb Hsmall.
  assert (Hg : ((Math_abs (Point.x b - Point.x a) <? 10)%float
                || (Math_abs (Point.y b - Point.y a) <? 10)%float) = true).
  { destruct Hsmall as [-> | ->]; [reflexivity | apply orb_true_r]. }
  assert (Hrun : applyCrop dom r r = (r, None)).
  { unfold applyCrop. rewrite Ha, Hb.
    destruct (imageRef_current dom); [rewrite Hg|]; reflexivity. }
  unfold next, value. rewrite Hrun. repeat split.
  intros [ed calls] Hsession. cbn in Hsession. subst ed. cbn [step editor outstanding].
  destruct (available r ClickApplyCrop); [|reflexivity].
  cbn [dispatch]. unfold bind. rewrite Hrun. cbn. rewrite app_nil_r. reflexivity.
Qed.

Lemma tiny_crop_is_ignored_witness :
  next (applyCrop sampleDom) (draggedNarrow)
    = draggedNarrow
  /\ value (applyCrop sampleDom) (draggedNarrow) = None.
Proof.
  destruct (tiny_crop_is_ignored sampleDom (draggedNarrow)
              (Point.mk 10 10) (Point.mk 15 200) eq_refl eq_refl) as (Hn & Hv & _).
  - left. reflexivity.
  - split; assumption.
Defined.

End CropClaims.

Section KeepClaims.

Lemma spanNotSemicolon_app (m after : string) :
  semicolonFree m = true ->
  spanNotSemicolon (m ++ ";" ++ after) = (m, ";" ++ after).
Proof.
  induction m as [|c m IH]; intros H; [reflexivity|].
  cbn [semicolonFree] in H. apply andb_true_iff in H as [Hc Hm].
  apply negb_true_iff in Hc.
  change (String c m ++ ";" ++ after) with (String c (m ++ ";" ++ after)).
  cbn [spanNotSemicolon]. rewrite Hc, (IH Hm). reflexivity.
Qed.

Lemma spanNotSemicolon_spec (s : string) :
  s = fst (spanNotSemicolon s) ++ snd (spanNotSemicolon s)
  /\ semicolonFree (fst (spanNotSemicolon s)) = true
  /\ (snd (spanNotSemicolon s) = ""
      \/ exists after, snd (spanNotSemicolon s) = ";" ++ after).
Proof.
  induction s as [|c s (IHs & IHf & IHa)]; [cbn; auto|].
  cbn [spanNotSemicolon].
  destruct (Ascii.eqb c ";") eqn:Hc; cbn [fst snd].
  - apply Ascii.eqb_eq in Hc as ->. repeat split. right. exists s. reflexivity.
  - cbn [semicolonFree]. rewrite IHf, Hc. repeat split; [|exact IHa].
    change (String c s
            = String c (fst (spanNotSemicolon s) ++ snd (spanNotSemicolon s))).
    f_equal. exact IHs.
Qed.

Lemma stripPrefix_spec (p s rest : string) :
  Js.stripPrefix p s = Some rest <-> s = p ++ rest.
Proof.
  revert s. induction p as [|a p IH]; intros s.
  - change ("" ++ rest) with rest. cbn. split; congruence.
  - change (String a p ++ rest) with (String a (p ++ rest)).
    destruct s as [|b s]; cbn; [split; discriminate|].
    destruct (Ascii.eqb_spec a b) as [->|Hab].
    + rewrite IH. split; congruence.
    + split; [discriminate | congruence].
Qed.

(** The pattern matches at the start of [s] with first group [m] exactly
    when [s] starts with [data:], then [m], then a semicolon. *)
Lemma mimeMatchHere_spec (s m : string) :
  mimeMatchHere s = Some m <->
  exists after, s = "data:" ++ m ++ ";" ++ after /\ m <> "" /\ semicolonFree m = true.
Proof.
  unfold mimeMatchHere. split.
  - destruct (Js.stripPrefix "data:" s) as [rest|] eqn:Hp; [|discriminate].
    apply stripPrefix_spec in Hp.
    destruct (spanNotSemicolon_spec rest) as (Hs & Hf & Ha).
    destruct (fst (spanNotSemicolon rest)) as [|c run] eqn:Hrun; [discriminate|].
    destruct Ha as [Ha|[after Ha]]; rewrite Ha in *; [discriminate|].
    cbn. intros [= <-]. exists after. rewrite Hp, Hs. repeat split; [discriminate | exact Hf].
  - intros (after & -> & Hne & Hf).
    assert (Hp : Js.stripPrefix "data:" ("data:" ++ m ++ ";" ++ after)
                 = Some (m ++ ";" ++ after)) by (apply stripPrefix_spec; reflexivity).
    rewrite Hp, (spanNotSemicolon_app m after Hf). cbn.
    destruct m; [contradiction | reflexivity].
Qed.

Lemma mimeMatch_unfold (s : string) :
  mimeMatch s =
    match mimeMatchHere s with
    | Some m => Some m
    | None => match s with EmptyString => None | String _ s' => mimeMatch s' end
    end.
Proof. destruct s; reflexivity. Qed.

(** A match that is found is an occurrence of the pattern. *)
Lemma mimeMatch_Some (s m : string) : mimeMatch s = Some m -> occursIn m s.
Proof.
  induction s as [|c s IH]; rewrite mimeMatch_unfold.
  - destruct (mimeMatchHere "") eqn:H; [|discriminate].
    intros [= <-]. apply mimeMatchHere_spec in H as (after & H & _). discriminate H.
  - destruct (mimeMatchHere (String c s)) as [m'|] eqn:H.
    + intros [= <-]. apply mimeMatchHere_spec in H as (after & H & Hne & Hf).
      exists "", after. auto.
    + intros Hs. destruct (IH Hs) as (before & after & -> & Hne & Hf).
      exists (String c before), after. auto.
Qed.

(** No match is found only where the pattern occurs nowhere. *)
Lemma mimeMatch_None (s : string) :
  mimeMatch s = None -> forall m, ~ occursIn m s.
Proof.
  induction s as [|c s IH]; rewrite mimeMatch_unfold;
    intros Hnone m (before & after & Hs & Hne & Hf).
  - destruct before; discriminate Hs.
  - destruct (mimeMatchHere (String c s)) as [m'|] eqn:H; [discriminate|].
    destruct before as [|c' before].
    + assert (Hm : mimeMatchHere (String c s) = Some m)
        by (apply mimeMatchHere_spec; exists after; auto).
      congruence.
    + cbn in Hs. injection Hs as -> ->.
      apply (IH Hnone m). exists before, after. auto.
Qed.

(** The pattern at the very start of the URL wins. *)
Lemma mimeMatch_prefix (m after : string) :
  m <> "" -> semicolonFree m = true ->
  mimeMatch ("data:" ++ m ++ ";" ++ after) = Some m.
Proof.
  intros Hne Hf. rewrite mimeMatch_unfold.
  assert (H : mimeMatchHere ("data:" ++ m ++ ";" ++ after) = Some m)
    by (apply mimeMatchHere_spec; eauto).
  rewrite H. reflexivity.
Qed.

(** C10, as the code has it: keeping a generated image commits a new image
    whose [base64] and [previewUrl] are both the generated data URL and
    whose [file] is the one of the previous current image.  Its mime type
    is the first group of the leftmost match of [data:([^;]+);] in the URL:
    the text between [data:] and the semicolon when the URL starts that
    way, and "image/png" when the pattern occurs nowhere in the URL. *)
Theorem keep_builds_the_new_image (r : EditorState) (g : GeneratedImage)
    (cur : ImageFile) :
  generatedImage r = Some g ->
  currentImage r = Some cur ->
  exists newImage : ImageFile,
    currentImage (next handleUseAsSource r) = Some newImage
    /\ history (next handleUseAsSource r)
       = (take (historyIndex r + 1) (history r) ++ [newImage])%list
    /\ base64 newImage = imageUrl g
    /\ previewUrl newImage = imageUrl g
    /\ file newImage = file cur
    /\ (forall m after : string,
          imageUrl g = "data:" ++ m ++ ";" ++ after ->
          m <> "" -> semicolonFree m = true -> mimeType newImage = m)
    /\ (forall m : string,
          mimeMatch (imageUrl g) = Some m ->
          mimeType newImage = m /\ occursIn m (imageUrl g))
    /\ ((forall m : string, ~ occursIn m (imageUrl g)) ->
          mimeType newImage = "image/png")
    /\ generatedImage (next handleUseAsSource r) = None
    /\ status (next handleUseAsSource r) = READY.
Proof.
  intros Hg Hc. unfold next, handleUseAsSource. rewrite Hg, Hc.
  eexists. cbn.
  split; [reflexivity|]. split; [reflexivity|]. split; [reflexivity|].
  split; [reflexivity|]. split; [reflexivity|].
  split; [|split; [|split; [|split; reflexivity]]].
  - intros m after Hurl Hne Hf. rewrite Hurl, (mimeMatch_prefix m after Hne Hf).
    reflexivity.
  - intros m Hm. rewrite Hm. split; [reflexivity | apply mimeMatch_Some, Hm].
  - intros Hnowhere. destruct (mimeMatch (imageUrl g)) as [m|] eqn:Hm; [|reflexivity].
    destruct (Hnowhere m). apply mimeMatch_Some, Hm.
Qed.

Lemma keep_builds_the_new_image_witness :
  exists newImage : ImageFile,
    currentImage (next handleUseAsSource pendingOnFresh) = Some newImage
    /\ base64 newImage = blueUrl
    /\ file newImage = Some (FileHandle 1)
    /\ mimeType newImage = "image/jpeg".
Proof.
  destruct (keep_builds_the_new_image pendingOnFresh pendingBlue photo eq_refl eq_refl)
    as (newImage & Hcur & _ & Hb & _ & Hf & Hm & _).
  exists newImage. repeat split; try assumption.
  apply (Hm "image/jpeg" "base64,/9j/4AAQSkZJRg=="); [reflexivity | discriminate | reflexivity].
Defined.

(** C10 fails as stated: of the fields of the previous current image only
    [file] is carried over; [base64] and [previewUrl] are replaced by the
    generated data URL. *)
Lemma keep_replaces_the_payload :
  currentImage pendingOnFresh = Some photo
  /\ generatedImage pendingOnFresh = Some pendingBlue
  /\ exists newImage : ImageFile,
       currentImage (next handleUseAsSource pendingOnFresh) = Some newImage
       /\ base64 newImage <> base64 photo
       /\ previewUrl newImage <> previewUrl photo
       /\ file newImage = file photo.
Proof.
  repeat split. eexists. repeat split; discriminate.
Qed.

End KeepClaims.

Section Scenarios.

Example trim_strips_both_ends : Js.trim "  make it blue	 " = "make it blue".
Proof. reflexivity. Qed.

Example blank_prompt_is_ignored :
  next (fun r => handleGenerate r "   " false (mkEditConfig None None)) fresh = fresh.
Proof. reflexivity. Qed.

Example cleanBase64_strips_the_prefix :
  cleanBase64 (base64 photo) = "iVBORw0KGgo="
  /\ cleanBase64 "data:image/gif;base64,R0lGOD" = "data:image/gif;base64,R0lGOD".
Proof. split; reflexivity. Qed.

Example imageConfig_only_for_the_pro_model :
  req_imageConfig (buildRequest "" "image/png" "p" (mkEditConfig None (Some size4K))) = None
  /\ req_imageConfig
       (buildRequest "" "image/png" "p" (mkEditConfig (Some proModel) (Some size4K)))
     = Some size4K.
Proof. split; reflexivity. Qed.

Example mimeMatch_examples :
  mimeMatch blueUrl = Some "image/jpeg"
  /\ mimeMatch "data:;base64,AAAA" = None
  /\ mimeMatch "blob:data:image/webp;x" = Some "image/webp".
Proof. repeat split. Qed.

Example Math_min_max_examples :
  Math_min 110 10 = 10%float
  /\ Math_max 0 (Math_min 450 400) = 400%float
  /\ Math_max 0 (Math_min (-3) 400) = 0%float
  /\ Math_min 0 (-0) = (-0)%float
  /\ Math_max (-0) 0 = 0%float
  /\ PrimFloat.is_nan (Math_min PrimFloat.nan 1) = true.
Proof. repeat split. Qed.

(** The scenario of the specification: one edit is requested, succeeds and
    is kept; then undo goes back to the upload. *)
Example edit_keep_undo :
  status (editor processing) = PROCESSING
  /\ status (editor completed) = COMPLETE
  /\ generatedImage (editor completed) = Some pendingBlue
  /\ outstanding completed = []
  /\ length (history (editor kept)) = 2
  /\ historyIndex (editor kept) = 1
  /\ status (editor kept) = READY
  /\ historyIndex (editor (step kept (User ClickUndo sampleDom))) = 0
  /\ status (editor (step kept (User ClickUndo sampleDom))) = READY
  /\ currentImage (editor (step kept (User ClickUndo sampleDom))) = Some photo.
Proof. repeat split. Qed.

(** The two drags of the samples. *)
Example drags :
  cropStart draggedWide = Some (Point.mk 10 10)
  /\ cropEnd draggedWide = Some (Point.mk 110 60)
  /\ cropEnd draggedNarrow = Some (Point.mk 15 200)
  /\ generatedImage draggedNarrow = Some pendingBlue.
Proof. repeat split. Qed.

End Scenarios.

(* ------------------------------------------------------------------ *)
(** * Further properties of the code *)

Section Prompts.

Lemma trimEnd_empty (s : string) : Js.trimEnd s = "" <-> blank s = true.
Proof.
  induction s as [|c s IH]; cbn; [tauto|].
  destruct (Js.trimEnd s) as [|c' t] eqn:Ht.
  - destruct (Js.isWhiteSpace c); cbn.
    + rewrite <- IH. tauto.
    + split; discriminate.
  - split; [discriminate|]. intros H. apply andb_true_iff in H as [_ H].
    apply IH in H. discriminate H.
Qed.

Lemma blank_trimStart (s : string) : blank (Js.trimStart s) = blank s.
Proof.
  induction s as [|c s IH]; cbn; [reflexivity|].
  destruct (Js.isWhiteSpace c) eqn:Hc; cbn; [exact IH|].
  rewrite Hc. reflexivity.
Qed.

(** [!finalPrompt.trim()] holds exactly of the blank prompts. *)
Lemma trim_truthy (s : string) : Js.truthy (Js.trim s) = negb (blank s).
Proof.
  unfold Js.trim. rewrite <- (blank_trimStart s).
  destruct (Js.trimEnd (Js.trimStart s)) as [|c t] eqn:Ht; cbn.
  - apply trimEnd_empty in Ht. rewrite Ht. reflexivity.
  - destruct (blank (Js.trimStart s)) eqn:Hb; [|reflexivity].
    apply trimEnd_empty in Hb. congruence.
Qed.

(** The three ways [handleGenerate] can go, up to its [await]. *)
Lemma handleGenerate_outcome (r : EditorState) (p : string) (mask : bool)
    (config : EditConfig) :
  (blank p = true /\ handleGenerate r p mask config r = (r, None))
  \/ (blank p = false
      /\ exists image, currentImage r = Some image
         /\ handleGenerate r p mask config r
            = (fst ((setStatus PROCESSING ;; setErrorMessage None)%handler r),
               Some (mkEditCall (base64 image) (mimeType image) p config)))
  \/ (blank p = false /\ currentImage r = None
      /\ handleGenerate r p mask config r
         = (fst ((setStatus ERROR ;;
                  setErrorMessage (Some (Js.message (typeErrorReading "base64"))))%handler r),
            None)).
Proof.
  unfold handleGenerate. rewrite trim_truthy, negb_involutive.
  destruct (blank p); [left; auto | right].
  destruct (currentImage r) as [image|]; [left | right]; split; eauto.
Qed.

(** X1: a prompt of white space only is ignored: the state stays and no
    call is made.  Any other prompt starts a call on the current image with
    that very prompt, sets the status to [PROCESSING] and clears the error
    message; nothing else changes. *)
Theorem blank_prompts_are_ignored (r : EditorState) (p : string) (mask : bool)
    (config : EditConfig) :
  (blank p = true ->
     next (fun r => handleGenerate r p mask config) r = r
     /\ value (fun r => handleGenerate r p mask config) r = None)
  /\ (forall image : ImageFile,
        blank p = false -> currentImage r = Some image ->
        let s' := next (fun r => handleGenerate r p mask config) r in
        value (fun r => handleGenerate r p mask config) r
          = Some (mkEditCall (base64 image) (mimeType image) p config)
        /\ status s' = PROCESSING
        /\ errorMessage s' = None
        /\ history s' = history r
        /\ historyIndex s' = historyIndex r
        /\ currentImage s' = currentImage r
        /\ generatedImage s' = generatedImage r).
Proof.
  unfold next, value.
  destruct (handleGenerate_outcome r p mask config)
    as [[Hb ->]|[(Hb & image & Hc & ->)|(Hb & Hc & ->)]]; split.
  - auto.
  - congruence.
  - congruence.
  - intros image' _ Hc'. cbn. repeat split. congruence.
  - congruence.
  - congruence.
Qed.

Lemma blank_prompts_are_ignored_witness :
  next (fun r => handleGenerate r "  	 " false (mkEditConfig None None)) fresh = fresh
  /\ status (next (fun r => handleGenerate r " bluer " false (mkEditConfig None None)) fresh)
     = PROCESSING.
Proof.
  destruct (blank_prompts_are_ignored fresh "  	 " false (mkEditConfig None None))
    as [Hblank _].
  destruct (blank_prompts_are_ignored fresh " bluer " false (mkEditConfig None None))
    as [_ Hstart].
  split.
  - apply Hblank. reflexivity.
  - apply (Hstart photo); reflexivity.
Defined.

End Prompts.

Section FloatOrder.

(** The order of binary64 numbers, read off its specification. *)
Lemma SFcompare_swap (f1 f2 : SpecFloat.spec_float) :
  SpecFloat.SFcompare f2 f1 = option_map CompOpp (SpecFloat.SFcompare f1 f2).
Proof.
  destruct f1 as [s1|s1| |s1 m1 e1], f2 as [s2|s2| |s2 m2 e2]; cbn;
    try reflexivity; try (destruct s1; reflexivity); try (destruct s2; reflexivity);
    try (destruct s1, s2; reflexivity).
  change (Pos.compare_cont Eq m1 m2) with (Pos.compare m1 m2).
  change (Pos.compare_cont Eq m2 m1) with (Pos.compare m2 m1).
  rewrite (Z.compare_antisym e1 e2), (Pos.compare_antisym m1 m2).
  destruct s1, s2; try reflexivity;
    destruct (e1 ?= e2)%Z; cbn; try reflexivity;
    destruct (m1 ?= m2)%positive; reflexivity.
Qed.

Lemma SFcompare_None (f1 f2 : SpecFloat.spec_float) :
  SpecFloat.SFcompare f1 f2 = None ->
  f1 = SpecFloat.S754_nan \/ f2 = SpecFloat.S754_nan.
Proof.
  destruct f1 as [s1|s1| |s1 m1 e1], f2 as [s2|s2| |s2 m2 e2]; cbn;
    auto; discriminate.
Qed.

Lemma is_nan_false (a : float) :
  PrimFloat.is_nan a = false -> Prim2SF a <> SpecFloat.S754_nan.
Proof.
  unfold PrimFloat.is_nan. rewrite FloatAxioms.eqb_spec. intros H Hnan.
  rewrite Hnan in H. discriminate H.
Qed.

Lemma ltb_leb (a b : float) : (a <? b)%float = true -> (a <=? b)%float = true.
Proof.
  rewrite FloatAxioms.ltb_spec, FloatAxioms.leb_spec. unfold SpecFloat.SFltb, SpecFloat.SFleb.
  destruct (SpecFloat.SFcompare (Prim2SF a) (Prim2SF b)) as [[| |]|];
    (discriminate || reflexivity).
Qed.

(** Between two numbers, one that is not below the other is at least it. *)
Lemma not_ltb_leb (a b : float) :
  PrimFloat.is_nan a = false -> PrimFloat.is_nan b = false ->
  (a <? b)%float = false -> (b <=? a)%float = true.
Proof.
  intros Ha Hb. rewrite FloatAxioms.ltb_spec, FloatAxioms.leb_spec. unfold SpecFloat.SFltb, SpecFloat.SFleb.
  rewrite (SFcompare_swap (Prim2SF a) (Prim2SF b)).
  destruct (SpecFloat.SFcompare (Prim2SF a) (Prim2SF b)) as [[| |]|] eqn:Hcmp; cbn;
    try (discriminate || reflexivity).
  intros _. apply SFcompare_None in Hcmp as [H|H];
    [apply is_nan_false in Ha | apply is_nan_false in Hb]; contradiction.
Qed.

Lemma leb_refl (a : float) : PrimFloat.is_nan a = false -> (a <=? a)%float = true.
Proof.
  intros Ha. apply not_ltb_leb; [exact Ha | exact Ha |].
  destruct (a <? a)%float eqn:H; [|reflexivity].
  pose proof H as H'. rewrite FloatAxioms.ltb_spec in H'. unfold SpecFloat.SFltb in H'.
  pose proof (SFcompare_swap (Prim2SF a) (Prim2SF a)) as Hswap.
  destruct (SpecFloat.SFcompare (Prim2SF a) (Prim2SF a)) as [[| |]|];
    (discriminate H' || discriminate Hswap).
Qed.

(** [Math.max(0, Math.min(v, w))] lies between 0 and [w]. *)
Lemma clamp_inside (v w : float) :
  PrimFloat.is_nan v = false -> PrimFloat.is_nan w = false ->
  (0 <=? w)%float = true ->
  PrimFloat.is_nan (Math_max 0 (Math_min v w)) = false
  /\ (0 <=? Math_max 0 (Math_min v w))%float = true
  /\ (Math_max 0 (Math_min v w) <=? w)%float = true.
Proof.
  intros Hv Hw H0.
  assert (Hm : PrimFloat.is_nan (Math_min v w) = false
               /\ (Math_min v w <=? w)%float = true).
  { unfold Math_min. rewrite Hv, Hw. cbn [orb].
    destruct (v <? w)%float eqn:Hvw; [split; [exact Hv | apply ltb_leb, Hvw]|].
    destruct (w <? v)%float eqn:Hwv; [split; [exact Hw | apply leb_refl, Hw]|].
    destruct (PrimFloat.get_sign v);
      [split; [exact Hv | apply not_ltb_leb; assumption]
      | split; [exact Hw | apply leb_refl, Hw]]. }
  destruct Hm as [Hmn Hmw]. set (m := Math_min v w) in *.
  unfold Math_max. rewrite Hmn.
  change (PrimFloat.is_nan 0) with false. cbn [orb].
  destruct (0 <? m)%float eqn:H0m; [repeat split; [exact Hmn | apply ltb_leb, H0m | exact Hmw]|].
  destruct (m <? 0)%float eqn:Hm0; [repeat split; exact H0|].
  change (PrimFloat.get_sign 0) with false. cbv iota. repeat split; exact H0.
Qed.

End FloatOrder.

Section Requests.

(** A call that [handleGenerate] leaves outstanding carries the prompt and
    the configuration it was given. *)
Lemma handleGenerate_call (r : EditorState) (p : string) (mask : bool)
    (config : EditConfig) (c : EditCall) :
  snd (handleGenerate r p mask config r) = Some c ->
  call_prompt c = p /\ call_config c = config /\ blank p = false
  /\ exists image, currentImage r = Some image
       /\ call_base64 c = base64 image /\ call_mimeType c = mimeType image
       /\ fst (handleGenerate r p mask config r)
          = fst ((setStatus PROCESSING ;; setErrorMessage None)%handler r).
Proof.
  destruct (handleGenerate_outcome r p mask config)
    as [[Hb ->]|[(Hb & image & Hc & ->)|(Hb & Hc & ->)]]; cbn; try discriminate.
  intros [= <-]. cbn. repeat split; [exact Hb|]. exists image. auto.
Qed.

(** X2: the two buttons of the refine tab.  With an empty field they do
    nothing.  Otherwise "Apply Edit" asks for "Select the <object> and
    <action>." and "Preview Mask" asks for the lime green overlay of the
    object; neither prompt is ever blank, so with a current image a call is
    always started, also when the fields hold white space only. *)
Theorem refine_buttons (r : EditorState) (image : ImageFile) :
  currentImage r = Some image ->
  (targetObject r = "" \/ editAction r = "" ->
     next handleRefineSubmit r = r /\ value handleRefineSubmit r = None)
  /\ (targetObject r <> "" -> editAction r <> "" ->
     value handleRefineSubmit r
       = Some (mkEditCall (base64 image) (mimeType image)
                 ("Select the " ++ targetObject r ++ " and " ++ editAction r ++ ".")
                 (mkEditConfig None None))
     /\ status (next handleRefineSubmit r) = PROCESSING)
  /\ (targetObject r = "" ->
     next handleVisualizeSelection r = r /\ value handleVisualizeSelection r = None)
  /\ (targetObject r <> "" ->
     value handleVisualizeSelection r
       = Some (mkEditCall (base64 image) (mimeType image)
                 ("Highlight the " ++ targetObject r
                  ++ " with a bright lime green overlay mask. Keep the rest of the image unchanged.")
                 (mkEditConfig None None))
     /\ status (next handleVisualizeSelection r) = PROCESSING).
Proof.
  intros Hc. unfold next, value, handleRefineSubmit, handleVisualizeSelection.
  repeat split.
  - destruct H as [-> | ->]; [reflexivity|]. rewrite orb_true_r. reflexivity.
  - destruct H as [-> | ->]; [reflexivity|]. rewrite orb_true_r. reflexivity.
  - destruct (targetObject r) as [|a t]; [contradiction|].
    destruct (editAction r) as [|b e]; [contradiction|]. cbn [Js.truthy negb orb].
    destruct (handleGenerate_outcome r ("Select the " ++ String a t ++ " and " ++ String b e ++ ".")
                false (mkEditConfig None None))
      as [[Hb _]|[(_ & image' & Hc' & ->)|(_ & Hc' & _)]];
      [discriminate Hb | cbn; congruence | congruence].
  - destruct (targetObject r) as [|a t]; [contradiction|].
    destruct (editAction r) as [|b e]; [contradiction|]. cbn [Js.truthy negb orb].
    destruct (handleGenerate_outcome r ("Select the " ++ String a t ++ " and " ++ String b e ++ ".")
                false (mkEditConfig None None))
      as [[Hb _]|[(_ & image' & Hc' & ->)|(_ & Hc' & _)]];
      [discriminate Hb | reflexivity | congruence].
  - rewrite H. reflexivity.
  - rewrite H. reflexivity.
  - destruct (targetObject r) as [|a t]; [contradiction|]. cbn [Js.truthy negb].
    destruct (handleGenerate_outcome r
                ("Highlight the " ++ String a t
                 ++ " with a bright lime green overlay mask. Keep the rest of the image unchanged.")
                true (mkEditConfig None None))
      as [[Hb _]|[(_ & image' & Hc' & ->)|(_ & Hc' & _)]];
      [discriminate Hb | cbn; congruence | congruence].
  - destruct (targetObject r) as [|a t]; [contradiction|]. cbn [Js.truthy negb].
    destruct (handleGenerate_outcome r
                ("Highlight the " ++ String a t
                 ++ " with a bright lime green overlay mask. Keep the rest of the image unchanged.")
                true (mkEditConfig None None))
      as [[Hb _]|[(_ & image' & Hc' & ->)|(_ & Hc' & _)]];
      [discriminate Hb | reflexivity | congruence].
Qed.

Lemma refine_buttons_witness :
  value handleRefineSubmit
    (fst ((setTargetObject "the mug" ;; setEditAction " ")%handler fresh))
  = Some (mkEditCall (base64 photo) (mimeType photo) "Select the the mug and  ."
            (mkEditConfig None None)).
Proof.
  destruct (refine_buttons
              (fst ((setTargetObject "the mug" ;; setEditAction " ")%handler fresh))
              photo eq_refl) as (_ & Hsubmit & _).
  apply Hsubmit; discriminate.
Defined.




(** X4: only the upscale buttons ask for the pro model and an image size;
    every other control sends no configuration, so the request goes to
    the default model without an [imageConfig]. *)
Theorem only_upscale_configures (dom : Dom) (r : EditorState) (a : UiAction)
    (c : EditCall) :
  snd (dispatch dom r a r) = Some c ->
  match a with
  | ClickUpscale size =>
      req_model (requestOf c) = proModel /\ req_imageConfig (requestOf c) = Some size
  | _ =>
      req_model (requestOf c) = defaultModel /\ req_imageConfig (requestOf c) = None
  end.
Proof.
  assert (Hplain : forall p mask,
            snd (handleGenerate r p mask (mkEditConfig None None) r) = Some c ->
            req_model (requestOf c) = defaultModel
            /\ req_imageConfig (requestOf c) = None).
  { intros p mask H. destruct (handleGenerate_call _ _ _ _ _ H) as (_ & Hcfg & _).
    unfold requestOf. rewrite Hcfg. split; reflexivity. }
  destruct a; cbn [dispatch silently]; try (cbn; discriminate).
  - unfold handleVisualizeSelection. destruct (negb _); [discriminate | apply Hplain].
  - unfold handleRefineSubmit. destruct (_ || _); [discriminate | apply Hplain].
  - destruct (String.eqb key "Enter"); [apply Hplain | discriminate].
  - apply Hplain.
  - destruct (presetsOf (activeTab r) !! i); [apply Hplain | discriminate].
  - unfold handleUpscale. intros H.
    destruct (handleGenerate_call _ _ _ _ _ H) as (_ & Hcfg & _).
    unfold requestOf. rewrite Hcfg. split; reflexivity.
Qed.

Lemma only_upscale_configures_witness :
  req_model (requestOf (mkEditCall (base64 photo) (mimeType photo) upscalePrompt
                          (mkEditConfig (Some proModel) (Some size4K)))) = proModel
  /\ req_imageConfig (requestOf (mkEditCall (base64 photo) (mimeType photo) upscalePrompt
                                   (mkEditConfig (Some proModel) (Some size4K))))
     = Some size4K.
Proof.
  apply (only_upscale_configures sampleDom fresh (ClickUpscale size4K)). reflexivity.
Defined.

(** X5: while the status is [PROCESSING], the controls that can still start
    a call are the Enter key of the custom prompt field and the custom
    prompt buttons, and no other. *)
Theorem calls_while_processing (dom : Dom) (r : EditorState) (a : UiAction)
    (c : EditCall) :
  status r = PROCESSING ->
  available r a = true ->
  snd (dispatch dom r a r) = Some c ->
  a = KeyDownCustomPrompt "Enter" \/ a = ClickCustomPrompt.
Proof.
  intros Hs Ha. destruct a; cbn [dispatch silently]; try (cbn; discriminate).
  - cbn in Ha. rewrite Hs in Ha. destruct (activeTab r); try discriminate.
    rewrite orb_true_r in Ha. discriminate.
  - cbn in Ha. rewrite Hs in Ha. destruct (activeTab r); try discriminate.
    rewrite orb_true_r in Ha. discriminate.
  - destruct (String.eqb_spec key "Enter") as [->|]; [auto | discriminate].
  - auto.
  - cbn in Ha. rewrite Hs in Ha. rewrite andb_false_r in Ha. discriminate.
  - cbn in Ha. rewrite Hs in Ha. destruct (activeTab r), size; discriminate.
Qed.

Lemma calls_while_processing_witness :
  KeyDownCustomPrompt "Enter" = KeyDownCustomPrompt "Enter"
  \/ KeyDownCustomPrompt "Enter" = ClickCustomPrompt.
Proof.
  apply (calls_while_processing sampleDom (editor processing)
           (KeyDownCustomPrompt "Enter")
           (mkEditCall (base64 photo) (mimeType photo) "make it blue"
              (mkEditConfig None None))); reflexivity.
Defined.

End Requests.

Section Service.

(** X6: without an API key (none, or an empty one) [editImageWithGemini]
    is rejected with the missing-key error whatever the remote service
    would answer, and the editor shows that message with status [ERROR]. *)
Theorem missing_key_is_reported (env : Env) (base64Image mimeType prompt : string)
    (config : EditConfig) :
  API_KEY env = None \/ API_KEY env = Some "" ->
  editImageWithGemini env base64Image mimeType prompt config
    = Js.Rejected (Js.mkError missingKeyMessage)
  /\ forall (s : EditorState) (now : Z),
       let s' := fst (handleGenerate_resume prompt now
                        (editImageWithGemini env base64Image mimeType prompt config) s) in
       status s' = ERROR
       /\ errorMessage s' = Some missingKeyMessage
       /\ generatedImage s' = generatedImage s.
Proof.
  intros Hkey.
  assert (H : editImageWithGemini env base64Image mimeType prompt config
              = Js.Rejected (Js.mkError missingKeyMessage)).
  { unfold editImageWithGemini, getClient. destruct Hkey as [-> | ->]; reflexivity. }
  split; [exact H|]. intros s now. rewrite H. cbn. repeat split.
Qed.

Lemma missing_key_is_reported_witness :
  editImageWithGemini (mkEnv (Some "") (generateContent generous))
    (base64 photo) (mimeType photo) "make it blue" (mkEditConfig None None)
  = Js.Rejected (Js.mkError missingKeyMessage).
Proof.
  apply (missing_key_is_reported (mkEnv (Some "") (generateContent generous))).
  right. reflexivity.
Defined.

(** X7: the request carries an [imageConfig] exactly when a size is asked
    for and the configured model is the pro model; the model is the
    configured one, or the default model when none or an empty one is
    configured; the prompt and the mime type go through unchanged. *)
Theorem request_configuration (base64Image mimeType prompt : string)
    (config : EditConfig) :
  let request := buildRequest base64Image mimeType prompt config in
  (forall size : ImageSize,
     req_imageConfig request = Some size
     <-> imageSize config = Some size /\ model config = Some proModel)
  /\ (model config = None \/ model config = Some "" -> req_model request = defaultModel)
  /\ (forall m : string, model config = Some m -> m <> "" -> req_model request = m)
  /\ req_text request = prompt
  /\ req_mimeType request = mimeType.
Proof.
  cbv zeta. unfold buildRequest. cbn [req_imageConfig req_model req_text req_mimeType].
  split; [|repeat split].
  - intros size. destruct (imageSize config) as [sz|]; [|split; [discriminate | intros [H _]; discriminate H]].
    destruct (model config) as [m|].
    + destruct m as [|a m]; cbn [Js.or_else Js.truthy].
      * cbn. split; [discriminate | intros [_ H]; discriminate H].
      * destruct (String.eqb_spec (String a m) proModel) as [->|Hne].
        -- split; [intros [= ->]; auto | intros [[= ->] _]; reflexivity].
        -- split; [discriminate | intros [_ H]; congruence].
    + cbn. split; [discriminate | intros [_ H]; discriminate H].
  - intros [-> | ->]; reflexivity.
  - intros m -> Hne. destruct m; [contradiction | reflexivity].
Qed.

Lemma request_configuration_witness :
  req_imageConfig (buildRequest "" "image/png" "sharper"
                     (mkEditConfig (Some proModel) (Some size2K))) = Some size2K
  /\ req_model (buildRequest "" "image/png" "sharper" (mkEditConfig (Some "") None))
     = defaultModel.
Proof.
  pose proof (request_configuration "" "image/png" "sharper"
                (mkEditConfig (Some proModel) (Some size2K))) as Hpro.
  pose proof (request_configuration "" "image/png" "sharper"
                (mkEditConfig (Some "") None)) as Hempty.
  cbv zeta in Hpro, Hempty.
  destruct Hpro as (Hsize & _). destruct Hempty as (_ & Hdefault & _).
  split.
  - apply Hsize. split; reflexivity.
  - apply Hdefault. right. reflexivity.
Defined.

(** Two strings that agree up to their first semicolon. *)
Lemma semicolon_split (m m' a b : string) :
  semicolonFree m = true -> semicolonFree m' = true ->
  m ++ ";" ++ a = m' ++ ";" ++ b -> m = m' /\ a = b.
Proof.
  intros Hm Hm' H. apply (f_equal spanNotSemicolon) in H.
  rewrite (spanNotSemicolon_app m a Hm), (spanNotSemicolon_app m' b Hm') in H.
  injection H as Hm0 Ha. change (a = b) in Ha. auto.
Qed.

Lemma cleanBase64_strips (fmt payload : string) :
  In fmt strippedTypes ->
  cleanBase64 ("data:image/" ++ fmt ++ ";base64," ++ payload) = payload.
Proof.
  intros Hin. cbn in Hin. destruct Hin as [<-|[<-|[<-|[<-|[]]]]]; reflexivity.
Qed.

Lemma cleanBase64_keeps (mime payload : string) :
  semicolonFree mime = true ->
  ~ In mime (map (fun fmt => "image/" ++ fmt) strippedTypes) ->
  cleanBase64 ("data:" ++ mime ++ ";base64," ++ payload)
    = "data:" ++ mime ++ ";base64," ++ payload.
Proof.
  intros Hfree Hnot.
  assert (Hno : forall fmt, In fmt strippedTypes ->
            Js.stripPrefix ("data:image/" ++ fmt ++ ";base64,")
              ("data:" ++ mime ++ ";base64," ++ payload) = None).
  { intros fmt Hin.
    destruct (Js.stripPrefix _ _) as [rest|] eqn:Hp; [|reflexivity].
    apply stripPrefix_spec in Hp. exfalso. apply Hnot.
    apply in_map_iff. exists fmt. split; [|exact Hin].
    assert (Hfmt : semicolonFree ("image/" ++ fmt) = true)
      by (cbn in Hin; destruct Hin as [<-|[<-|[<-|[<-|[]]]]]; reflexivity).
    assert (Heq : mime ++ ";" ++ ("base64," ++ payload)
                  = ("image/" ++ fmt) ++ ";" ++ ("base64," ++ rest)).
    { cbn in Hin. destruct Hin as [<-|[<-|[<-|[<-|[]]]]];
        injection Hp as Hp; exact Hp. }
    destruct (semicolon_split _ _ _ _ Hfree Hfmt Heq) as [-> _]. reflexivity. }
  pose proof (Hno "png" ltac:(cbn; auto)) as Hpng.
  pose proof (Hno "jpeg" ltac:(cbn; auto)) as Hjpeg.
  pose proof (Hno "jpg" ltac:(cbn; auto)) as Hjpg.
  pose proof (Hno "webp" ltac:(cbn; auto 10)) as Hwebp.
  change ("data:image/" ++ "png" ++ ";base64,") with "data:image/png;base64," in Hpng.
  change ("data:image/" ++ "jpeg" ++ ";base64,") with "data:image/jpeg;base64," in Hjpeg.
  change ("data:image/" ++ "jpg" ++ ";base64,") with "data:image/jpg;base64," in Hjpg.
  change ("data:image/" ++ "webp" ++ ";base64,") with "data:image/webp;base64," in Hwebp.
  unfold cleanBase64. cbv zeta beta. rewrite Hpng, Hjpeg, Hjpg, Hwebp. reflexivity.
Qed.

(** X8: the data-URL prefix of a PNG, JPEG, JPG or WebP image is stripped
    before the payload is sent, once; the prefix of any other type is not:
    such an image is sent with its prefix in front of the payload. *)
Theorem cleanBase64_prefixes (payload : string) :
  (forall fmt : string, In fmt strippedTypes ->
     cleanBase64 ("data:image/" ++ fmt ++ ";base64," ++ payload) = payload)
  /\ (forall mime : string,
        semicolonFree mime = true ->
        ~ In mime (map (fun fmt => "image/" ++ fmt) strippedTypes) ->
        cleanBase64 ("data:" ++ mime ++ ";base64," ++ payload)
          = "data:" ++ mime ++ ";base64," ++ payload).
Proof.
  split.
  - intros fmt. apply cleanBase64_strips.
  - intros mime. apply cleanBase64_keeps.
Qed.

Lemma cleanBase64_prefixes_witness :
  cleanBase64 ("data:image/" ++ "jpg" ++ ";base64," ++ "/9j/4AAQ") = "/9j/4AAQ"
  /\ cleanBase64 ("data:" ++ "image/gif" ++ ";base64," ++ "R0lGOD")
     = "data:" ++ "image/gif" ++ ";base64," ++ "R0lGOD".
Proof.
  split.
  - apply (cleanBase64_prefixes "/9j/4AAQ"). cbn. auto.
  - apply (cleanBase64_prefixes "R0lGOD"); [reflexivity|].
    cbn. intros [H|[H|[H|[H|[]]]]]; discriminate H.
Defined.

End Service.

Section Responses.

(** The loop finds an image URL exactly when a part holds an image. *)
Lemma scanParts_image (parts : list Part) (acc : option string * option string) :
  is_Some (fst (fold_left scanPart parts acc))
  <-> is_Some (fst acc) \/ Exists (fun p => is_Some (inlineData p)) parts.
Proof.
  revert acc. induction parts as [|p parts IH]; intros acc; cbn.
  - split; [auto | intros [H|H]; [exact H | inversion H]].
  - rewrite IH, Exists_cons. unfold scanPart.
    destruct (inlineData p) as [d|]; cbn.
    + split; eauto.
    + destruct (text p) as [t|]; [destruct (Js.truthy t)|]; cbn;
        (split; [intros [H|H]; auto | intros [H|[[d H]|H]]; auto; discriminate H]).
Qed.

(** The last image part is the one whose URL is kept. *)
Lemma scanParts_last_image (before after : list Part) (p : Part) (d : InlineData) :
  inlineData p = Some d ->
  Forall (fun p => inlineData p = None) after ->
  fst (scanParts (before ++ p :: after)) = Some (dataUrlOf d).
Proof.
  intros Hp Hafter. unfold scanParts. rewrite fold_left_app. cbn [fold_left].
  destruct (scanParts_without_image after
              (scanPart (fold_left scanPart before (None, None)) p) Hafter) as [-> _].
  unfold scanPart. rewrite Hp. reflexivity.
Qed.

(** Among parts of which one holds an image there is a last one. *)
Lemma last_image_part (parts : list Part) :
  Exists (fun p => is_Some (inlineData p)) parts ->
  exists before p d after,
    parts = (before ++ p :: after)%list /\ inlineData p = Some d
    /\ Forall (fun p => inlineData p = None) after.
Proof.
  induction parts as [|x parts IH]; intros H; [inversion H|].
  destruct (decide (Exists (fun p => is_Some (inlineData p)) parts)) as [Hex|Hno].
  - destruct (IH Hex) as (before & p & d & after & -> & Hp & Hafter).
    exists (x :: before), p, d, after. auto.
  - apply Exists_cons in H as [[d Hd]|H]; [|contradiction].
    exists [], x, d, parts. repeat split; [exact Hd|].
    apply Forall_forall. intros q Hq.
    destruct (inlineData q) as [dq|] eqn:Hdq; [|reflexivity].
    exfalso. apply Hno. apply Exists_exists. exists q. split; [exact Hq | eauto].
Qed.

(** X9: what a settled call leaves behind.  Either the call resolved with
    an image URL that is not empty: then the status is [COMPLETE], the
    pending result is that URL with the prompt and the time, and the error
    message is as it was.  Or the status is [ERROR], the error message is
    set and not empty, and the pending result is as it was.  In both cases
    the history, the cursor and the current image are untouched. *)
Theorem settled_call_outcome (prompt : string) (now : Z)
    (settled : Js.Promise EditResult) (s : EditorState) :
  let s' := fst (handleGenerate_resume prompt now settled s) in
  ((exists (url : string) (t : option string),
      settled = Js.Resolved (mkEditResult (Some url) t) /\ url <> ""
      /\ status s' = COMPLETE
      /\ generatedImage s' = Some (mkGeneratedImage url prompt now)
      /\ errorMessage s' = errorMessage s)
   \/ (status s' = ERROR
       /\ (exists m : string, errorMessage s' = Some m /\ m <> "")
       /\ generatedImage s' = generatedImage s
       /\ forall (url : string) (t : option string),
            settled = Js.Resolved (mkEditResult (Some url) t) -> url = ""))
  /\ history s' = history s
  /\ historyIndex s' = historyIndex s
  /\ currentImage s' = currentImage s.
Proof.
  cbv zeta. unfold handleGenerate_resume.
  destruct settled as [[[url|] t]|error]; cbn [res_imageUrl].
  - destruct url as [|a url]; cbn.
    + repeat split. right. repeat split; [eexists; split; [reflexivity | discriminate]|].
      intros url t' [= <- _]. reflexivity.
    + repeat split. left. exists (String a url), t. repeat split. discriminate.
  - cbn. repeat split. right. repeat split; [eexists; split; [reflexivity | discriminate]|].
    discriminate.
  - cbn. repeat split. right. repeat split; [|discriminate].
    exists (Js.or_else (Js.message error) failedMessage). split; [reflexivity|].
    unfold Js.or_else. destruct (Js.message error); discriminate.
Qed.

(** X10: when the first candidate of the response holds image parts, the
    controller goes to [COMPLETE] with the data URL of the last of them
    pending, whatever texts come with it; the call is no longer
    outstanding and the history is untouched. *)
Theorem image_response_completes (session : Session) (i : nat) (c : EditCall)
    (env : Env) (now : Z) (key : string) (response : Response)
    (candidate : Candidate) (others : list Candidate)
    (before after : list Part) (p : Part) (d : InlineData) :
  outstanding session !! i = Some c ->
  getClient env = inr key ->
  generateContent env (requestOf c) = Js.Resolved response ->
  candidates response = Some (candidate :: others) ->
  content_parts candidate = Some (Some (before ++ p :: after)%list) ->
  inlineData p = Some d ->
  Forall (fun p => inlineData p = None) after ->
  let session' := step session (Settled i env now) in
  status (editor session') = COMPLETE
  /\ generatedImage (editor session')
     = Some (mkGeneratedImage (dataUrlOf d) (call_prompt c) now)
  /\ errorMessage (editor session') = errorMessage (editor session)
  /\ history (editor session') = history (editor session)
  /\ historyIndex (editor session') = historyIndex (editor session)
  /\ currentImage (editor session') = currentImage (editor session)
  /\ outstanding session' = delete i (outstanding session).
Proof.
  intros Hc Hkey Hresp Hcand Hparts Hp Hafter.
  assert (Hsettle : exists t, settle env c
                      = Js.Resolved (mkEditResult (Some (dataUrlOf d)) t)).
  { unfold settle, editImageWithGemini, normalize. unfold requestOf in Hresp.
    rewrite Hkey, Hresp, Hcand, Hparts.
    rewrite (scanParts_last_image before after p d Hp Hafter). eauto. }
  destruct Hsettle as [t Hsettle].
  cbv zeta. cbn [step]. rewrite Hc, Hsettle. cbn. repeat split.
Qed.

Lemma image_response_completes_witness :
  status (editor (step processing (Settled 0 (answering [textPart; imagePart; textPart])
                                     1700000000000))) = COMPLETE
  /\ generatedImage (editor (step processing
                               (Settled 0 (answering [textPart; imagePart; textPart])
                                  1700000000000))) = Some pendingBlue.
Proof.
  destruct (image_response_completes processing 0
              (mkEditCall (base64 photo) (mimeType photo) "make it blue"
                 (mkEditConfig None None))
              (answering [textPart; imagePart; textPart]) 1700000000000 "key"
              {| candidates :=
                   Some [ {| content_parts :=
                               Some (Some [textPart; imagePart; textPart]) |} ] |}
              {| content_parts := Some (Some [textPart; imagePart; textPart]) |} []
              [textPart] [textPart] imagePart
              (mkInlineData (Some "image/jpeg") (Some "/9j/4AAQSkZJRg=="))
              eq_refl eq_refl eq_refl eq_refl eq_refl eq_refl)
    as (Hs & Hg & _).
  - repeat constructor.
  - split; [exact Hs | exact Hg].
Defined.

(** X11: a settled call takes the controller to [COMPLETE] exactly when
    the key is there, the remote call resolved, and the parts of the first
    candidate of the response hold an image; in every other case (a failed
    call, no candidates, an empty candidate list, a candidate without
    content or parts, parts with text only) it takes it to [ERROR]. *)
Theorem completes_exactly_when (session : Session) (i : nat) (c : EditCall)
    (env : Env) (now : Z) :
  outstanding session !! i = Some c ->
  let s' := editor (step session (Settled i env now)) in
  (status s' = COMPLETE \/ status s' = ERROR)
  /\ (status s' = COMPLETE
      <-> exists (key : string) (response : Response) (candidate : Candidate)
                 (others : list Candidate) (parts : list Part),
            getClient env = inr key
            /\ generateContent env (requestOf c) = Js.Resolved response
            /\ candidates response = Some (candidate :: others)
            /\ content_parts candidate = Some (Some parts)
            /\ Exists (fun p => is_Some (inlineData p)) parts).
Proof.
  intros Hc. cbv zeta. cbn [step]. rewrite Hc. cbn [editor].
  unfold settle, editImageWithGemini, normalize. fold (requestOf c).
  destruct (getClient env) as [e|key] eqn:Hkey.
  { cbn. split; [auto|]. split; [discriminate|].
    intros (k & r & cand & o & ps & Hk & _). discriminate Hk. }
  destruct (generateContent env (requestOf c)) as [response|e] eqn:Hresp.
  2:{ cbn. split; [auto|]. split; [discriminate|].
      intros (k & r & cand & o & ps & _ & Hr & _). discriminate Hr. }
  destruct (candidates response) as [[|candidate others]|] eqn:Hcand.
  1,3: cbn; (split; [auto|]); (split; [discriminate|]);
       intros (k & r & cand & o & ps & _ & [= <-] & Hcs & _); congruence.
  destruct (content_parts candidate) as [[parts|]|] eqn:Hparts.
  2,3: cbn; (split; [auto|]); (split; [discriminate|]);
       intros (k & r & cand & o & ps & _ & [= <-] & Hcs & Hps & _); congruence.
  destruct (decide (Exists (fun p => is_Some (inlineData p)) parts)) as [Hex|Hno].
  - destruct (last_image_part parts Hex) as (before & p & d & after & -> & Hp & Hafter).
    rewrite (scanParts_last_image before after p d Hp Hafter). cbn.
    split; [auto|]. split; [|reflexivity].
    intros _. exists key, response, candidate, others, (before ++ p :: after)%list. auto.
  - assert (Hnone : fst (scanParts parts) = None).
    { destruct (fst (scanParts parts)) as [url|] eqn:Hurl; [|reflexivity].
      exfalso. apply Hno. unfold scanParts in Hurl.
      destruct (proj1 (scanParts_image parts (None, None))) as [[x Hx]|H];
        [rewrite Hurl; eauto | discriminate Hx | exact H]. }
    cbn [res_imageUrl]. rewrite Hnone. cbn.
    split; [auto|]. split; [discriminate|].
    intros (k & r & cand & o & ps & _ & [= <-] & Hcs & Hps & Hex).
    rewrite Hcand in Hcs. injection Hcs as <- <-.
    rewrite Hparts in Hps. injection Hps as <-. contradiction.
Qed.

Lemma completes_exactly_when_witness :
  status (editor (step processing (Settled 0 offline 1700000000000))) = COMPLETE
  \/ status (editor (step processing (Settled 0 offline 1700000000000))) = ERROR.
Proof.
  apply (completes_exactly_when processing 0
           (mkEditCall (base64 photo) (mimeType photo) "make it blue"
              (mkEditConfig None None)) offline 1700000000000).
  reflexivity.
Defined.

End Responses.

Section HistoryUse.

(** Neither [undo] nor [redo] touches the history, the status or the error
    message, whether the cursor moves or not. *)
Lemma undo_redo_keep (s : EditorState) :
  (history (next undo s) = history s /\ status (next undo s) = status s
   /\ errorMessage (next undo s) = errorMessage s)
  /\ (history (next redo s) = history s /\ status (next redo s) = status s
      /\ errorMessage (next redo s) = errorMessage s).
Proof.
  unfold next, undo, redo. split.
  - destruct (0 <? historyIndex s); cbn; auto.
  - destruct (_ <? _)%Z; cbn; auto.
Qed.

(** X12: undo and redo undo each other: where the cursor can move back,
    redo after undo brings back the cursor and the current image, and
    where it can move forward, undo after redo does; the history itself is
    never changed by either, and the pending result is dropped. *)
Theorem undo_redo_round_trip (s : EditorState) :
  wellFormed s ->
  (0 < historyIndex s ->
     let s' := next redo (next undo s) in
     history s' = history s /\ historyIndex s' = historyIndex s
     /\ currentImage s' = currentImage s /\ generatedImage s' = None)
  /\ (historyIndex s + 1 < length (history s) ->
     let s' := next undo (next redo s) in
     history s' = history s /\ historyIndex s' = historyIndex s
     /\ currentImage s' = currentImage s /\ generatedImage s' = None).
Proof.
  intros Hwf. apply wellFormed_cursor in Hwf as [Hlt Hcur].
  split; intros H; cbv zeta.
  - rewrite (undo_moves s H). rewrite redo_moves by (cbn; lia). cbn.
    replace (historyIndex s - 1 + 1) with (historyIndex s) by lia. auto.
  - rewrite (redo_moves s H). rewrite undo_moves by (cbn; lia). cbn.
    replace (historyIndex s + 1 - 1) with (historyIndex s) by lia. auto.
Qed.

Lemma undo_redo_round_trip_witness :
  historyIndex (next redo (next undo afterKeep)) = 1
  /\ currentImage (next redo (next undo afterKeep)) = currentImage afterKeep.
Proof.
  assert (Hwf : wellFormed afterKeep).
  { unfold wellFormed. vm_compute. repeat split; lia. }
  destruct (undo_redo_round_trip afterKeep Hwf) as [Hback _].
  destruct Hback as (_ & Hi & Hc & _); [vm_compute; lia|].
  split; [exact Hi | exact Hc].
Defined.

(** X13: a commit can be undone and then redone: after [addToHistory] the
    cursor is on the last entry, so redo does nothing and its button is
    disabled; undo goes back to the image that was current before, and
    redo from there returns the committed image.  The entries that were
    after the cursor before the commit are gone: the history has exactly
    one entry after the old cursor. *)
Theorem commit_then_undo (s : EditorState) (newImage : ImageFile) :
  wellFormed s ->
  let s1 := next (fun r => addToHistory r newImage) s in
  next redo s1 = s1
  /\ available s1 ClickRedo = false
  /\ length (history s1) = historyIndex s + 2
  /\ historyIndex (next undo s1) = historyIndex s
  /\ currentImage (next undo s1) = currentImage s
  /\ currentImage (next redo (next undo s1)) = Some newImage.
Proof.
  intros Hwf. apply wellFormed_cursor in Hwf as [Hlt Hcur]. cbv zeta.
  destruct (addToHistory_cells s s newImage) as (Hh & Hi & Hc).
  fold (next (fun r => addToHistory r newImage) s) in Hh, Hi, Hc.
  generalize dependent (next (fun r => addToHistory r newImage) s). intros s1 Hh Hi Hc.
  assert (Hk : length (take (historyIndex s + 1) (history s)) = historyIndex s + 1)
    by (rewrite length_take; lia).
  assert (Hlen : length (history s1) = historyIndex s + 2)
    by (rewrite Hh, length_app, Hk; cbn; lia).
  rewrite Hk in Hi.
  assert (Hold : history s1 !! historyIndex s = currentImage s).
  { rewrite Hh, lookup_app_l by lia. rewrite lookup_take_lt by lia. auto. }
  assert (Hnew : history s1 !! (historyIndex s + 1) = Some newImage).
  { rewrite Hh. apply list_lookup_middle. lia. }
  repeat split.
  - unfold next, redo.
    destruct (Z.ltb_spec (Z.of_nat (historyIndex s1)) (Z.of_nat (length (history s1)) - 1));
      [lia | reflexivity].
  - cbn. apply negb_false_iff, Z.eqb_eq. lia.
  - exact Hlen.
  - rewrite undo_moves by lia. cbn. lia.
  - rewrite undo_moves by lia. cbn. rewrite Hi.
    replace (historyIndex s + 1 - 1) with (historyIndex s) by lia. exact Hold.
  - rewrite (undo_moves s1) by lia. rewrite redo_moves by (cbn; lia). cbn.
    rewrite Hi. replace (historyIndex s + 1 - 1 + 1) with (historyIndex s + 1) by lia.
    exact Hnew.
Qed.

Lemma commit_then_undo_witness :
  currentImage (next undo (next (fun r => addToHistory r photo) (next undo afterKeep)))
  = Some photo
  /\ length (history (next (fun r => addToHistory r photo) (next undo afterKeep))) = 2.
Proof.
  assert (Hwf : wellFormed (next undo afterKeep)).
  { unfold wellFormed. vm_compute. repeat split; lia. }
  destruct (commit_then_undo (next undo afterKeep) photo Hwf)
    as (_ & _ & Hlen & _ & Hcur & _).
  split; [exact Hcur | exact Hlen].
Defined.

(** X14: the undo and redo buttons are enabled exactly when their handler
    moves the cursor; where a button is disabled, the handler (which the
    keyboard can still reach) changes nothing. *)
Theorem history_buttons (s : EditorState) :
  wellFormed s ->
  (available s ClickUndo = true <-> historyIndex (next undo s) <> historyIndex s)
  /\ (available s ClickUndo = false -> next undo s = s)
  /\ (available s ClickRedo = true <-> historyIndex (next redo s) <> historyIndex s)
  /\ (available s ClickRedo = false -> next redo s = s).
Proof.
  intros Hwf. apply wellFormed_cursor in Hwf as [Hlt Hcur].
  cbn [available]. unfold next, undo, redo.
  destruct (Nat.ltb_spec 0 (historyIndex s)) as [H0|H0];
    destruct (Z.ltb_spec (Z.of_nat (historyIndex s)) (Z.of_nat (length (history s)) - 1))
      as [Hl|Hl];
    destruct (Nat.eqb_spec (historyIndex s) 0) as [Hz|Hz];
    destruct (Z.eqb_spec (Z.of_nat (historyIndex s)) (Z.of_nat (length (history s)) - 1))
      as [He|He];
    cbn; try lia; repeat split; intros; try reflexivity; try discriminate; try lia.
Qed.

Lemma history_buttons_witness :
  next undo fresh = fresh /\ historyIndex (next undo afterKeep) <> historyIndex afterKeep.
Proof.
  assert (Hfresh : wellFormed fresh) by (unfold wellFormed; vm_compute; repeat split; lia).
  assert (Hkeep : wellFormed afterKeep) by (unfold wellFormed; vm_compute; repeat split; lia).
  split.
  - apply (history_buttons fresh Hfresh). reflexivity.
  - apply (history_buttons afterKeep Hkeep). reflexivity.
Defined.

(** One key press runs [undo], or [redo], or neither. *)
Lemma handleKeyDown_cases (s : EditorState) (key : string)
    (metaKey ctrlKey shiftKey : bool) :
  next (fun r => handleKeyDown r key metaKey ctrlKey shiftKey) s =
    if metaKey || ctrlKey then
      if String.eqb key "z" then (if shiftKey then next redo s else next undo s)
      else if String.eqb key "y" then next redo s
      else s
    else s.
Proof.
  unfold next, handleKeyDown, bind. cbn [fst snd ret].
  destruct (metaKey || ctrlKey); cbn [andb]; [|reflexivity].
  destruct (String.eqb_spec key "z") as [->|Hz]; cbn [andb orb].
  - destruct shiftKey; cbn; reflexivity.
  - destruct (String.eqb key "y"); reflexivity.
Qed.

(** X15: the keyboard.  Without Ctrl or Meta a key does nothing.  With one
    of them, "z" without Shift is undo, "z" with Shift and "y" are redo,
    and every other key does nothing; no key press runs both, and none
    touches the history, the status or the error message. *)
Theorem keyboard_shortcuts (s : EditorState) (key : string)
    (metaKey ctrlKey shiftKey : bool) :
  let s' := next (fun r => handleKeyDown r key metaKey ctrlKey shiftKey) s in
  s' = (if metaKey || ctrlKey then
          if String.eqb key "z" then (if shiftKey then next redo s else next undo s)
          else if String.eqb key "y" then next redo s
          else s
        else s)
  /\ history s' = history s
  /\ status s' = status s
  /\ errorMessage s' = errorMessage s.
Proof.
  cbv zeta. rewrite handleKeyDown_cases.
  destruct (undo_redo_keep s) as ((Hu1 & Hu2 & Hu3) & (Hr1 & Hr2 & Hr3)).
  split; [reflexivity|].
  destruct (metaKey || ctrlKey); [|auto].
  destruct (String.eqb key "z"); [destruct shiftKey; auto|].
  destruct (String.eqb key "y"); auto.
Qed.

End HistoryUse.

Section Sessions.

(** What a control does to the status and the error message. *)
Lemma handleGenerate_status (r : EditorState) (p : string) (mask : bool)
    (config : EditConfig) :
  let done := handleGenerate r p mask config r in
  (fst done = r /\ snd done = None)
  \/ (status (fst done) = PROCESSING /\ errorMessage (fst done) = None
      /\ is_Some (snd done))
  \/ (status (fst done) = ERROR
      /\ (exists m : string, errorMessage (fst done) = Some m /\ m <> "")
      /\ snd done = None).
Proof.
  cbv zeta.
  destruct (handleGenerate_outcome r p mask config)
    as [[Hb ->]|[(Hb & image & Hc & ->)|(Hb & Hc & ->)]]; cbn.
  - auto.
  - right. left. eauto.
  - right. right. repeat split. eexists. split; [reflexivity | discriminate].
Qed.

Lemma dispatch_status (dom : Dom) (r : EditorState) (a : UiAction) :
  let done := dispatch dom r a r in
  (status (fst done) = status r /\ errorMessage (fst done) = errorMessage r
   /\ snd done = None)
  \/ (status (fst done) = READY /\ snd done = None)
  \/ (status (fst done) = PROCESSING /\ errorMessage (fst done) = None
      /\ is_Some (snd done))
  \/ (status (fst done) = ERROR
      /\ (exists m : string, errorMessage (fst done) = Some m /\ m <> "")
      /\ snd done = None).
Proof.
  assert (Hgen : forall p mask config,
            let done := handleGenerate r p mask config r in
            (status (fst done) = status r /\ errorMessage (fst done) = errorMessage r
             /\ snd done = None)
            \/ (status (fst done) = READY /\ snd done = None)
            \/ (status (fst done) = PROCESSING /\ errorMessage (fst done) = None
                /\ is_Some (snd done))
            \/ (status (fst done) = ERROR
                /\ (exists m : string, errorMessage (fst done) = Some m /\ m <> "")
                /\ snd done = None)).
  { intros p mask config. cbv zeta.
    destruct (handleGenerate_status r p mask config) as [[-> ->]|[H|H]]; auto. }
  cbv zeta. destruct a; cbn [dispatch silently]; try (left; cbn; auto; fail).
  - unfold handleVisualizeSelection. destruct (negb _); [left; cbn; auto | apply Hgen].
  - unfold handleRefineSubmit. destruct (_ || _); [left; cbn; auto | apply Hgen].
  - destruct (String.eqb key "Enter"); [apply Hgen | left; cbn; auto].
  - apply Hgen.
  - destruct (presetsOf (activeTab r) !! i); [apply Hgen | left; cbn; auto].
  - apply Hgen.
  - left. destruct (undo_redo_keep r) as ((_ & Hs & He) & _).
    unfold bind. cbn [fst snd ret]. auto.
  - left. destruct (undo_redo_keep r) as (_ & (_ & Hs & He)).
    unfold bind. cbn [fst snd ret]. auto.
  - left. unfold silently, bind. cbn [fst snd ret].
    change (fst (handleKeyDown r key metaKey ctrlKey shiftKey r))
      with (next (fun r => handleKeyDown r key metaKey ctrlKey shiftKey) r).
    rewrite handleKeyDown_cases.
    destruct (undo_redo_keep r) as ((_ & Hu2 & Hu3) & (_ & Hr2 & Hr3)).
    destruct (metaKey || ctrlKey); [|auto].
    destruct (String.eqb key "z"); [destruct shiftKey; auto|].
    destruct (String.eqb key "y"); auto.
  - unfold handleUseAsSource. destruct (generatedImage r); cbn; auto.
  - unfold handleCropMouseDown. destruct (negb _); cbn; auto.
  - unfold handleCropMouseMove. destruct (_ || _); cbn; auto.
  - left. unfold bind, applyCrop. cbn [fst snd ret].
    destruct (imageRef_current dom), (cropStart r), (cropEnd r); cbn; auto.
    destruct (_ || _); cbn; auto.
    destruct (getContext2d dom); cbn; auto.
    destruct (currentImage r); cbn; auto.
Qed.

(** The outcome of a settled call; see [handleGenerate_resume]. *)
Lemma resume_status (prompt : string) (now : Z) (settled : Js.Promise EditResult)
    (s : EditorState) :
  let s' := fst (handleGenerate_resume prompt now settled s) in
  status s' = COMPLETE
  \/ (status s' = ERROR /\ exists m : string, errorMessage s' = Some m /\ m <> "").
Proof.
  cbv zeta. unfold handleGenerate_resume.
  assert (Hcatch : forall e,
            status (fst (handleGenerate_catch e s)) = ERROR
            /\ exists m, errorMessage (fst (handleGenerate_catch e s)) = Some m /\ m <> "").
  { intros e. cbn. split; [reflexivity|]. eexists. split; [reflexivity|].
    unfold Js.or_else. destruct (Js.message e); discriminate. }
  destruct settled as [[[url|] t]|error]; cbn [res_imageUrl]; auto.
  destruct (Js.truthy url); [left; reflexivity | auto].
Qed.

Lemma coherent_step (session : Session) (e : Event) :
  coherent session -> coherent (step session e).
Proof.
  intros H. pose proof H as (Hfour & Herr & Hproc).
  destruct e as [a dom|i env now]; cbn [step].
  - destruct (available (editor session) a); [|exact H].
    unfold coherent. cbn [editor outstanding].
    destruct (dispatch_status dom (editor session) a)
      as [(Hs & He & Hv)|[(Hs & Hv)|[(Hs & He & Hv)|(Hs & He & Hv)]]];
      rewrite Hs, ?He, ?Hv.
    + cbn [option_list]. rewrite app_nil_r.
      split; [exact Hfour | split; [exact Herr | exact Hproc]].
    + split; [auto | split; [discriminate | discriminate]].
    + split; [auto | split; [discriminate |]]. intros _. split; [reflexivity|].
      destruct Hv as [c ->]. cbn. intros Hnil. apply app_eq_nil in Hnil as [_ Hnil].
      discriminate Hnil.
    + split; [auto | split; [intros _; exact He | discriminate]].
  - destruct (outstanding session !! i) as [c|]; [|exact H].
    unfold coherent. cbn [editor outstanding].
    destruct (resume_status (call_prompt c) now (settle env c) (editor session))
      as [Hs|[Hs He]]; rewrite Hs.
    + split; [auto | split; [discriminate | discriminate]].
    + split; [auto | split; [intros _; exact He | discriminate]].
Qed.

(** X16: throughout a session the status is [READY], [PROCESSING],
    [COMPLETE] or [ERROR]; whenever it is [ERROR] there is an error message
    to show and it is not empty; whenever it is [PROCESSING] there is no
    error message and a call is outstanding. *)
Theorem sessions_are_coherent (initialImage : ImageFile) (es : list Event) :
  coherent (run (startSession initialImage) es).
Proof.
  assert (Hrun : forall session, coherent session -> coherent (run session es)).
  { induction es as [|e es IH]; intros session H; cbn; [exact H|].
    apply IH, coherent_step, H. }
  apply Hrun. unfold coherent. cbn. split; [auto | split; discriminate].
Qed.

End Sessions.

Section Ownership.

Lemma handleGenerate_history (r : EditorState) (p : string) (mask : bool)
    (config : EditConfig) :
  history (fst (handleGenerate r p mask config r)) = history r.
Proof.
  destruct (handleGenerate_outcome r p mask config)
    as [[Hb ->]|[(Hb & image & Hc & ->)|(Hb & Hc & ->)]]; reflexivity.
Qed.

(** X17: the history has two writers only.  An event leaves the history as
    it is unless it is a click on "Keep & Continue" or on "Apply Crop", and
    then the new history is the old one up to the cursor followed by one
    new image, which becomes the current image.  In particular a call that
    settles never writes to the history. *)
Theorem history_has_two_writers (session : Session) (e : Event) :
  history (editor (step session e)) = history (editor session)
  \/ exists (dom : Dom) (image : ImageFile),
       (e = User ClickKeep dom \/ e = User ClickApplyCrop dom)
       /\ history (editor (step session e))
          = (take (historyIndex (editor session) + 1) (history (editor session))
             ++ [image])%list
       /\ currentImage (editor (step session e)) = Some image.
Proof.
  destruct e as [a dom|i env now]; cbn [step].
  2:{ left. destruct (outstanding session !! i) as [c|]; [|reflexivity].
      cbn [editor]. unfold handleGenerate_resume.
      destruct (settle env c) as [[[url|] t]|error]; cbn [res_imageUrl];
        try destruct (Js.truthy url); reflexivity. }
  destruct (available (editor session) a); [|left; reflexivity].
  cbn [editor]. set (r := editor session).
  destruct a; cbn [dispatch silently]; try (left; reflexivity).
  - left. unfold handleVisualizeSelection.
    destruct (negb _); [reflexivity | apply handleGenerate_history].
  - left. unfold handleRefineSubmit.
    destruct (_ || _); [reflexivity | apply handleGenerate_history].
  - left. destruct (String.eqb key "Enter"); [apply handleGenerate_history | reflexivity].
  - left. apply handleGenerate_history.
  - left. destruct (presetsOf (activeTab r) !! i);
      [apply handleGenerate_history | reflexivity].
  - left. apply handleGenerate_history.
  - left. destruct (undo_redo_keep r) as ((Hh & _) & _). exact Hh.
  - left. destruct (undo_redo_keep r) as (_ & (Hh & _)). exact Hh.
  - left. unfold silently, bind. cbn [fst snd ret].
    change (fst (handleKeyDown r key metaKey ctrlKey shiftKey r))
      with (next (fun r => handleKeyDown r key metaKey ctrlKey shiftKey) r).
    rewrite handleKeyDown_cases.
    destruct (undo_redo_keep r) as ((Hu & _) & (Hr & _)).
    destruct (metaKey || ctrlKey); [|auto].
    destruct (String.eqb key "z"); [destruct shiftKey; auto|].
    destruct (String.eqb key "y"); auto.
  - unfold handleUseAsSource. destruct (generatedImage r) as [g|]; [|left; reflexivity].
    right. eexists dom, _. split; [left; reflexivity|]. cbn. split; reflexivity.
  - left. unfold handleCropMouseDown. destruct (negb _); reflexivity.
  - left. unfold handleCropMouseMove. destruct (_ || _); reflexivity.
  - unfold bind, applyCrop. cbn [fst snd ret].
    destruct (imageRef_current dom), (cropStart r), (cropEnd r); try (left; reflexivity).
    destruct (_ || _); [left; reflexivity|].
    destruct (getContext2d dom); [|left; reflexivity].
    destruct (currentImage r) as [cur|]; [|left; reflexivity].
    right. eexists dom, _. split; [right; reflexivity|]. cbn. split; reflexivity.
Qed.

End Ownership.

Section CropUse.

(** X18: a crop that goes through commits one image: its [base64] and
    [previewUrl] are what the canvas encoded for the drawn rectangle in the
    mime type of the source, and its mime type and file are those of the
    source.  The selection and the pending result are cleared; the status
    and the error message are not touched. *)
Theorem crop_commits (dom : Dom) (r : EditorState) (img : ImgElement)
    (a b : Point.t) (cur : ImageFile) (drawn : Raster) :
  imageRef_current dom = Some img ->
  cropStart r = Some a -> cropEnd r = Some b ->
  currentImage r = Some cur ->
  value (applyCrop dom) r = Some drawn ->
  let s' := next (applyCrop dom) r in
  let cropped := toDataURL dom drawn (mimeType cur) in
  currentImage s'
    = Some {| file := file cur; previewUrl := cropped; base64 := cropped;
              mimeType := mimeType cur |}
  /\ history s'
     = (take (historyIndex r + 1) (history r)
        ++ [ {| file := file cur; previewUrl := cropped; base64 := cropped;
                mimeType := mimeType cur |} ])%list
  /\ historyIndex s' = length (history s') - 1
  /\ cropStart s' = None /\ cropEnd s' = None
  /\ generatedImage s' = None
  /\ status s' = status r
  /\ errorMessage s' = errorMessage r.
Proof.
  intros Hi Ha Hb Hc. unfold value, next, applyCrop. rewrite Hi, Ha, Hb, Hc.
  destruct (_ || _); [discriminate|].
  destruct (getContext2d dom); [|discriminate].
  cbn. intros [= <-]. rewrite length_app. cbn. repeat split; lia.
Qed.

Lemma crop_commits_witness :
  generatedImage (next (applyCrop sampleDom)
                    (editor (run completed (dragTo 210 110)))) = None
  /\ length (history (next (applyCrop sampleDom)
                        (editor (run completed (dragTo 210 110))))) = 2.
Proof.
  destruct (crop_commits sampleDom (editor (run completed (dragTo 210 110)))
              (mkImgElement 800 600 400 300) (Point.mk 10 10) (Point.mk 110 60)
              photo (mkRaster 20 20 200 100 200 100)
              eq_refl eq_refl eq_refl eq_refl eq_refl)
    as (_ & Hh & _ & _ & _ & Hg & _).
  split; [exact Hg | rewrite Hh; reflexivity].
Defined.

(** X19: [applyCrop] changes the state only when everything is in place:
    the image element is mounted, both corners of the selection are set,
    the selection is at least 10 pixels in both directions, a 2D context
    is to be had and there is a current image. *)
Theorem crop_needs_everything (dom : Dom) (r : EditorState) :
  next (applyCrop dom) r <> r ->
  exists (img : ImgElement) (a b : Point.t) (cur : ImageFile),
    imageRef_current dom = Some img
    /\ cropStart r = Some a /\ cropEnd r = Some b
    /\ (Math_abs (Point.x b - Point.x a) <? 10)%float = false
    /\ (Math_abs (Point.y b - Point.y a) <? 10)%float = false
    /\ getContext2d dom = true
    /\ currentImage r = Some cur.
Proof.
  unfold next, applyCrop.
  destruct (imageRef_current dom) as [img|]; [|intros H; exfalso; apply H; reflexivity].
  destruct (cropStart r) as [a|]; [|intros H; exfalso; apply H; reflexivity].
  destruct (cropEnd r) as [b|]; [|intros H; exfalso; apply H; reflexivity].
  cbv zeta.
  destruct (Math_abs (Point.x b - Point.x a) <? 10)%float eqn:Hw;
    [intros H; exfalso; apply H; reflexivity|].
  destruct (Math_abs (Point.y b - Point.y a) <? 10)%float eqn:Hh;
    [intros H; exfalso; apply H; reflexivity|].
  cbn [orb].
  destruct (getContext2d dom); [|intros H; exfalso; apply H; reflexivity].
  destruct (currentImage r) as [cur|]; [|intros H; exfalso; apply H; reflexivity].
  intros _. exists img, a, b, cur. repeat split; assumption.
Qed.

Lemma crop_needs_everything_witness :
  exists (img : ImgElement) (a b : Point.t) (cur : ImageFile),
    imageRef_current sampleDom = Some img
    /\ cropStart draggedWide = Some a /\ cropEnd draggedWide = Some b
    /\ (Math_abs (Point.x b - Point.x a) <? 10)%float = false
    /\ (Math_abs (Point.y b - Point.y a) <? 10)%float = false
    /\ getContext2d sampleDom = true
    /\ currentImage draggedWide = Some cur.
Proof.
  apply (crop_needs_everything sampleDom draggedWide). discriminate.
Defined.

(** X20: the drag.  On the crop tab a mouse-down puts both corners of the
    selection under the pointer and starts the drag; a move never changes
    the first corner; once the button is released, moves are ignored.  On
    any other tab neither a mouse-down nor a move changes anything. *)
Theorem crop_drag (s : EditorState) (down move : MouseEvent) :
  (activeTab s = crop ->
     let corner := Point.mk (clientX down - target_left down)
                            (clientY down - target_top down) in
     let s1 := next (fun r => handleCropMouseDown r down) s in
     cropStart s1 = Some corner /\ cropEnd s1 = Some corner
     /\ isDraggingCrop s1 = true
     /\ cropStart (next (fun r => handleCropMouseMove r move) s1) = Some corner
     /\ next (fun r => handleCropMouseMove r move) (next handleCropMouseUp s1)
        = next handleCropMouseUp s1)
  /\ (activeTab s <> crop ->
     next (fun r => handleCropMouseDown r down) s = s
     /\ next (fun r => handleCropMouseMove r move) s = s).
Proof.
  unfold next, handleCropMouseDown, handleCropMouseMove, handleCropMouseUp.
  split; intros Htab.
  - rewrite Htab. cbn. rewrite Htab. cbn. repeat split.
  - destruct (activeTab s); try contradiction; cbn; rewrite ?orb_true_r; auto.
Qed.

Lemma crop_drag_witness :
  cropStart (next (fun r => handleCropMouseDown r (mkMouseEvent 110 60 100 50 400 300))
               (fst (setActiveTab crop fresh)))
  = Some (Point.mk 10 10).
Proof.
  destruct (crop_drag (fst (setActiveTab crop fresh))
              (mkMouseEvent 110 60 100 50 400 300)
              (mkMouseEvent 210 110 100 50 400 300)) as [Hon _].
  destruct Hon as (Hstart & _); [reflexivity|]. exact Hstart.
Defined.

(** X21: while dragging, the second corner follows the pointer but never
    leaves the image: both its coordinates are between 0 and the displayed
    size, for every position of the pointer (numbers that are not NaN and
    a displayed size that is not negative). *)
Theorem crop_end_stays_inside (s : EditorState) (e : MouseEvent) (start : Point.t) :
  isDraggingCrop s = true -> cropStart s = Some start -> activeTab s = crop ->
  PrimFloat.is_nan (clientX e - target_left e) = false ->
  PrimFloat.is_nan (clientY e - target_top e) = false ->
  PrimFloat.is_nan (target_width e) = false ->
  PrimFloat.is_nan (target_height e) = false ->
  (0 <=? target_width e)%float = true ->
  (0 <=? target_height e)%float = true ->
  exists corner : Point.t,
    cropEnd (next (fun r => handleCropMouseMove r e) s) = Some corner
    /\ (0 <=? Point.x corner)%float = true
    /\ (Point.x corner <=? target_width e)%float = true
    /\ (0 <=? Point.y corner)%float = true
    /\ (Point.y corner <=? target_height e)%float = true.
Proof.
  intros Hd Hs Ht Hx Hy Hw Hh Hw0 Hh0.
  unfold next, handleCropMouseMove. rewrite Hd, Hs, Ht. cbn.
  destruct (clamp_inside _ _ Hx Hw Hw0) as (_ & Hx0 & Hx1).
  destruct (clamp_inside _ _ Hy Hh Hh0) as (_ & Hy0 & Hy1).
  eexists. split; [reflexivity|]. cbn. auto.
Qed.

Lemma crop_end_stays_inside_witness :
  exists corner : Point.t,
    cropEnd (next (fun r => handleCropMouseMove r (mkMouseEvent 900 20 100 50 400 300))
               (next (fun r => handleCropMouseDown r (mkMouseEvent 110 60 100 50 400 300))
                  (fst (setActiveTab crop fresh)))) = Some corner
    /\ (0 <=? Point.x corner)%float = true
    /\ (Point.x corner <=? 400)%float = true
    /\ (0 <=? Point.y corner)%float = true
    /\ (Point.y corner <=? 300)%float = true.
Proof.
  apply (crop_end_stays_inside
           (next (fun r => handleCropMouseDown r (mkMouseEvent 110 60 100 50 400 300))
              (fst (setActiveTab crop fresh)))
           (mkMouseEvent 900 20 100 50 400 300) (Point.mk 10 10)); reflexivity.
Defined.

End CropUse.

Section KeepUse.

(** X22: what the service sends comes back to it.  When the pending result
    is the data URL of an image part and the user keeps it, the new current
    image has the mime type of the part (the word "undefined" when the part
    names none); and when that type is PNG, JPEG, JPG or WebP, the next
    request made on this image carries exactly the payload of the part,
    under that mime type. *)
Theorem generated_image_round_trip (r : EditorState) (g : GeneratedImage)
    (cur : ImageFile) (d : InlineData) :
  generatedImage r = Some g ->
  currentImage r = Some cur ->
  imageUrl g = dataUrlOf d ->
  exists newImage : ImageFile,
    currentImage (next handleUseAsSource r) = Some newImage
    /\ base64 newImage = dataUrlOf d
    /\ (forall m : string,
          part_mimeType d = Some m -> m <> "" -> semicolonFree m = true ->
          mimeType newImage = m)
    /\ (part_mimeType d = None -> mimeType newImage = "undefined")
    /\ (forall (fmt payload prompt : string) (config : EditConfig),
          part_mimeType d = Some ("image/" ++ fmt) -> In fmt strippedTypes ->
          part_data d = Some payload ->
          req_data (buildRequest (base64 newImage) (mimeType newImage) prompt config)
            = payload
          /\ req_mimeType (buildRequest (base64 newImage) (mimeType newImage) prompt config)
             = "image/" ++ fmt).
Proof.
  intros Hg Hc Hurl. unfold next, handleUseAsSource. rewrite Hg, Hc.
  eexists. cbn [fst addToHistory bind ret setHistory setHistoryIndex setCurrentImage
                setGeneratedImage setTargetObject setEditAction setStatus
                currentImage snd base64 mimeType].
  split; [reflexivity|]. split; [exact Hurl|].
  assert (Hmime : forall m, part_mimeType d = Some m -> m <> "" ->
            semicolonFree m = true -> mimeMatch (imageUrl g) = Some m).
  { intros m Hm Hne Hfree. rewrite Hurl. unfold dataUrlOf. rewrite Hm.
    apply (mimeMatch_prefix m ("base64," ++ Js.toString (part_data d)) Hne Hfree). }
  split; [|split].
  - intros m Hm Hne Hfree. rewrite (Hmime m Hm Hne Hfree). reflexivity.
  - intros Hm.
    assert (Hundefined : mimeMatch (imageUrl g) = Some "undefined").
    { rewrite Hurl. unfold dataUrlOf. rewrite Hm.
      apply (mimeMatch_prefix "undefined" ("base64," ++ Js.toString (part_data d)));
        [discriminate | reflexivity]. }
    rewrite Hundefined. reflexivity.
  - intros fmt payload prompt config Hm Hin Hdata.
    assert (Hfree : semicolonFree ("image/" ++ fmt) = true)
      by (cbn in Hin; destruct Hin as [<-|[<-|[<-|[<-|[]]]]]; reflexivity).
    rewrite (Hmime ("image/" ++ fmt) Hm ltac:(discriminate) Hfree).
    unfold buildRequest. cbn [req_data req_mimeType]. split; [|reflexivity].
    rewrite Hurl. unfold dataUrlOf. rewrite Hm, Hdata.
    apply (cleanBase64_strips fmt payload Hin).
Qed.

Lemma generated_image_round_trip_witness :
  exists newImage : ImageFile,
    currentImage (next handleUseAsSource pendingOnFresh) = Some newImage
    /\ mimeType newImage = "image/jpeg"
    /\ req_data (buildRequest (base64 newImage) (mimeType newImage) "warmer"
                   (mkEditConfig None None)) = "/9j/4AAQSkZJRg==".
Proof.
  destruct (generated_image_round_trip pendingOnFresh pendingBlue photo
              (mkInlineData (Some "image/jpeg") (Some "/9j/4AAQSkZJRg=="))
              eq_refl eq_refl eq_refl)
    as (newImage & Hcur & _ & Hmime & _ & Hreq).
  exists newImage. split; [exact Hcur|]. split.
  - apply Hmime; [reflexivity | discriminate | reflexivity].
  - apply (Hreq "jpeg" "/9j/4AAQSkZJRg==" "warmer" (mkEditConfig None None));
      [reflexivity | cbn; auto | reflexivity].
Defined.

End KeepUse.

Section Upload.
Import UploadZone.

(** X23: the upload zone hands a file to the editor only if the type of the
    file starts with "image/" and both the encoding and the object URL
    succeed; the image then carries the file itself, its type as mime type,
    the encoding as [base64] and the object URL as preview.  A file of
    another type raises the "Please upload an image file" alert and is not
    even encoded; a failure of the encoding or of the object URL raises
    "Failed to process image.".  Of the files of a drop or of a file
    dialog only the first is processed. *)
Theorem upload_validation (browser : Browser) (file : DomFile) :
  (forall image : ImageFile,
     processFile browser file = Selected image <->
     (exists rest : string, type file = "image/" ++ rest)
     /\ exists (data url : string),
          fileToBase64 browser (handle file) = Js.Resolved data
          /\ createObjectURL browser (handle file) = inr url
          /\ image = {| Types.file := Some (handle file); previewUrl := url;
                        base64 := data; mimeType := type file |})
  /\ ((forall rest : string, type file <> "image/" ++ rest) ->
      forall browser' : Browser,
        processFile browser' file = Alerted notAnImageAlert)
  /\ (forall (rest : string) (error : Js.Error),
        type file = "image/" ++ rest ->
        fileToBase64 browser (handle file) = Js.Rejected error ->
        processFile browser file = Alerted failedAlert)
  /\ (forall others : list DomFile,
        handleFileChange browser (Some (file :: others))
          = Some (processFile browser file)
        /\ handleDrop browser (Some (file :: others))
           = (false, Some (processFile browser file)))
  /\ handleFileChange browser None = None
  /\ handleFileChange browser (Some []) = None.
Proof.
  split; [|split; [|split; [|split; [|split; reflexivity]]]].
  - intros image. unfold processFile. split.
    + destruct (Js.stripPrefix "image/" (type file)) as [rest|] eqn:Hp; [|discriminate].
      apply stripPrefix_spec in Hp.
      destruct (fileToBase64 browser (handle file)) as [data|]; [|discriminate].
      destruct (createObjectURL browser (handle file)) as [|url]; [discriminate|].
      intros [= <-]. split; eauto.
    + intros [[rest Ht] (data & url & Hd & Hu & ->)].
      apply stripPrefix_spec in Ht. rewrite Ht, Hd, Hu. reflexivity.
  - intros Hnot browser'. unfold processFile.
    destruct (Js.stripPrefix "image/" (type file)) as [rest|] eqn:Hp; [|reflexivity].
    apply stripPrefix_spec in Hp. destruct (Hnot rest Hp).
  - intros rest error Ht Hfail. unfold processFile.
    apply stripPrefix_spec in Ht. rewrite Ht, Hfail. reflexivity.
  - intros others. split; reflexivity.
Qed.

Lemma upload_validation_witness :
  processFile (mkBrowser (fun _ => Js.Resolved "data:text/plain;base64,aGk=")
                 (fun _ => inr "blob:1"))
    (mkDomFile (FileHandle 7) "text/plain")
  = Alerted notAnImageAlert.
Proof.
  apply (upload_validation
           (mkBrowser (fun _ => Js.Resolved "data:text/plain;base64,aGk=")
              (fun _ => inr "blob:1"))
           (mkDomFile (FileHandle 7) "text/plain")).
  intros rest H. discriminate H.
Defined.

End Upload.

Section OnlyOnce.

(** X24: nothing is committed twice.  Once a pending result has been kept
    there is no pending result, so a second "Keep & Continue" changes
    nothing; once a crop has been applied there is no selection, so a
    second "Apply Crop" changes nothing and draws nothing. *)
Theorem commits_happen_once (dom dom' : Dom) (r : EditorState) :
  next handleUseAsSource (next handleUseAsSource r) = next handleUseAsSource r
  /\ (next (applyCrop dom) r <> r ->
      next (applyCrop dom') (next (applyCrop dom) r) = next (applyCrop dom) r
      /\ value (applyCrop dom') (next (applyCrop dom) r) = None).
Proof.
  split.
  - unfold next, handleUseAsSource.
    destruct (generatedImage r) as [g|] eqn:Hg; cbn; [reflexivity|].
    rewrite Hg. reflexivity.
  - unfold next, value, applyCrop.
    destruct (imageRef_current dom) as [img|]; [|intros H; exfalso; apply H; reflexivity].
    destruct (cropStart r) as [a|]; [|intros H; exfalso; apply H; reflexivity].
    destruct (cropEnd r) as [b|]; [|intros H; exfalso; apply H; reflexivity].
    destruct (_ || _); [intros H; exfalso; apply H; reflexivity|].
    destruct (getContext2d dom); [|intros H; exfalso; apply H; reflexivity].
    destruct (currentImage r) as [cur|]; [|intros H; exfalso; apply H; reflexivity].
    intros _. cbn. destruct (imageRef_current dom'); split; reflexivity.
Qed.

Lemma commits_happen_once_witness :
  next (applyCrop sampleDom) (next (applyCrop sampleDom) draggedWide)
  = next (applyCrop sampleDom) draggedWide.
Proof.
  apply (commits_happen_once sampleDom sampleDom draggedWide). discriminate.
Defined.

End OnlyOnce.
